(** * ThinkcellBuilder: a shallow embedding of [thinkcellbuilder.py]

    The development follows the Python module top to bottom: the values the
    library is handed and the dictionaries it builds, the exceptions it
    raises, [Template] and its [add_*] methods, then [Presentation] with the
    store of [Template] instances its slide list refers to. *)

From Stdlib Require Import ZArith Ascii Floats.SpecFloat DecimalString.
From stdpp Require Import gmap strings list.

(** ** Python values *)

(** The values that reach the library and the ones it builds.  A [float] is
    kept as its IEEE 754 datum: the library never computes with one, it only
    passes it on.  A [dict] is kept in insertion order, the order in which
    [json.dump] writes its keys. *)
#[local] Set Warnings "-register-all".
Inductive pyval : Type :=
| PNone
| PBool (b : bool)
| PInt (n : Z)
| PFloat (x : spec_float)
| PStr (s : string)
| PDate (year month day : nat)
| PDatetime (year month day hour minute second microsecond : nat)
| PList (items : list pyval)
| PDict (entries : list (string * pyval)).

(** The classes of those values, with the two subclass links that matter to
    [isinstance]: [bool] derives from [int], [datetime] from [date]. *)
Inductive pyclass : Type :=
| cls_object | cls_NoneType | cls_bool | cls_int | cls_float | cls_str
| cls_date | cls_datetime | cls_list | cls_dict.

Definition pyclass_eqb (c d : pyclass) : bool :=
  match c, d with
  | cls_object, cls_object | cls_NoneType, cls_NoneType
  | cls_bool, cls_bool | cls_int, cls_int | cls_float, cls_float
  | cls_str, cls_str | cls_date, cls_date | cls_datetime, cls_datetime
  | cls_list, cls_list | cls_dict, cls_dict => true
  | _, _ => false
  end.

Definition type_of (v : pyval) : pyclass :=
  match v with
  | PNone => cls_NoneType
  | PBool _ => cls_bool
  | PInt _ => cls_int
  | PFloat _ => cls_float
  | PStr _ => cls_str
  | PDate _ _ _ => cls_date
  | PDatetime _ _ _ _ _ _ _ => cls_datetime
  | PList _ => cls_list
  | PDict _ => cls_dict
  end.

(** Method resolution order: the class, then its bases. *)
Definition mro (c : pyclass) : list pyclass :=
  match c with
  | cls_object => [cls_object]
  | cls_bool => [cls_bool; cls_int; cls_object]
  | cls_datetime => [cls_datetime; cls_date; cls_object]
  | c => [c; cls_object]
  end.

Definition issubclass (c d : pyclass) : bool := existsb (pyclass_eqb d) (mro c).

(** [isinstance(v, c)] and [isinstance(v, (c1, c2, ...))]. *)
Definition isinstance (v : pyval) (c : pyclass) : bool := issubclass (type_of v) c.
Definition isinstance_any (v : pyval) (cs : list pyclass) : bool :=
  existsb (isinstance v) cs.

Definition is_None (v : pyval) : bool :=
  match v with PNone => true | _ => false end.

(** ** Exceptions *)

(** Every [raise] of the module builds its message with an f-string; a
    message is kept as the place that raised it with the values it shows. *)
Inductive message : Type :=
| msg_not_acceptable (data_element : pyval)
| msg_row_size (data_list : list pyval) (size expected : nat)
| msg_fill_size (fill : list pyval) (size expected : nat)
| msg_pie_shape (name : string) (data : list (list pyval))
| msg_not_template (template_name : pyval)
| msg_not_powerpoint (template_name : pyval)
| msg_not_ppttc (filename : string)
| msg_no_slides
| msg_no_attribute (attr : string)
| msg_not_path_like (filename : string)
| msg_not_json_serializable (o : pyval).

Inductive exn : Type :=
| ValueError (m : message)
| RuntimeError (m : message)
| TypeError (m : message)
| AttributeError (m : message).

(** The outcome of a call: a value, or an exception on its way up. *)
Inductive res (A : Type) : Type :=
| Ok (a : A)
| Raise (e : exn).
Arguments Ok {A} a.
Arguments Raise {A} e.

Definition bindR {A B} (r : res A) (k : A -> res B) : res B :=
  match r with
  | Ok a => k a
  | Raise e => Raise e
  end.

Notation "'let*' x ':=' r 'in' k" := (bindR r (fun x => k))
  (at level 10, x name, r at level 100, k at level 200, only parsing).

(** A list comprehension [[f(el) for el in l]]: left to right, the first
    exception ends it. *)
Fixpoint comprehension {A B} (f : A -> res B) (l : list A) : res (list B) :=
  match l with
  | [] => Ok []
  | el :: rest =>
      let* b := f el in
      let* bs := comprehension f rest in
      Ok (b :: bs)
  end.

(** ** Strings and dates *)

(** [s.endswith(suffix)] *)
Definition endswith (s suffix : string) : bool :=
  let n := String.length s in
  let k := String.length suffix in
  (k <=? n) && String.eqb (String.substring (n - k) k s) suffix.

(** Left padding with zeros, as [%m] and [%d] do. *)
Definition zfill (width : nat) (s : string) : string :=
  String.string_of_list_ascii
    (repeat "0"%char (width - String.length s) ++ String.list_ascii_of_string s).

Definition decimal (n : nat) : string := NilZero.string_of_uint (Nat.to_uint n).

(** [strftime] for the directives of a calendar date, as CPython gives it
    with the C library of Linux: month and day in two digits, the year in
    as many digits as it has, so without leading zeros before the year
    1000.  Any other character of the format is copied. *)
Fixpoint strftime_fields (year month day : nat) (format : string) : string :=
  match format with
  | EmptyString => EmptyString
  | String "%" (String "Y" rest) =>
      decimal year +:+ strftime_fields year month day rest
  | String "%" (String "m" rest) =>
      zfill 2 (decimal month) +:+ strftime_fields year month day rest
  | String "%" (String "d" rest) =>
      zfill 2 (decimal day) +:+ strftime_fields year month day rest
  | String c rest => String c (strftime_fields year month day rest)
  end.

(** [v.strftime(format)]: a method of [date], inherited by [datetime]. *)
Definition strftime (v : pyval) (format : string) : res string :=
  match v with
  | PDate y m d => Ok (strftime_fields y m d format)
  | PDatetime y m d _ _ _ _ => Ok (strftime_fields y m d format)
  | _ => Raise (AttributeError (msg_no_attribute "strftime"))
  end.

(** ** Template.transform_input *)

Definition transform_input (data_element color : pyval) : res pyval :=
  let fill := if is_None color then [] else [("fill", color)] in
  if isinstance data_element cls_datetime then
    let* date := strftime data_element "%Y-%m-%d" in
    Ok (PDict (("date", PStr date) :: fill))
  else if isinstance data_element cls_str then
    Ok (PDict (("string", data_element) :: fill))
  else if isinstance_any data_element [cls_int; cls_float] then
    Ok (PDict (("number", data_element) :: fill))
  else
    Raise (ValueError (msg_not_acceptable data_element)).

(** A [for x in l:] loop whose body may raise; [locals] are the variables
    the body assigns. *)
Fixpoint for_in {A L} (body : L -> A -> res L) (l : list A) (locals : L) : res L :=
  match l with
  | [] => Ok locals
  | x :: rest =>
      let* locals := body locals x in
      for_in body rest locals
  end.

(** ** Dictionaries *)

Definition dict : Type := list (string * pyval).

(** [d[k] = v]: an existing key keeps its place, a new one goes last. *)
Fixpoint setitem (d : dict) (k : string) (v : pyval) : dict :=
  match d with
  | [] => [(k, v)]
  | (k', v') :: d' =>
      if String.eqb k' k then (k, v) :: d' else (k', v') :: setitem d' k v
  end.

Fixpoint getitem (d : dict) (k : string) : option pyval :=
  match d with
  | [] => None
  | (k', v') :: d' => if String.eqb k' k then Some v' else getitem d' k
  end.

(** [spec["table"].append(row)] *)
Definition table_append (spec : dict) (row : pyval) : dict :=
  match getitem spec "table" with
  | Some (PList rows) => setitem spec "table" (PList (rows ++ [row]))
  | _ => spec
  end.

(** ** Methods: state, warnings and exceptions *)

Inductive UserWarning : Type :=
| field_name_not_str
| chart_name_not_str.

(** An argument the module passes to [str()]: a [str], or another object,
    kept as the text [str()] returns for it. *)
Inductive strarg : Type :=
| a_str (s : string)
| a_obj (shown : string).

Definition is_str (a : strarg) : bool :=
  match a with a_str _ => true | a_obj _ => false end.

Definition py_str (a : strarg) : string :=
  match a with a_str s => s | a_obj shown => shown end.

(** A method runs on the state [S] of the objects it can reach; it leaves a
    state behind, the warnings it gave, and returns or raises. *)
Record Run (S A : Type) : Type := MkRun {
  final : S;
  warned : list UserWarning;
  outcome : res A
}.
Arguments MkRun {S A}.
Arguments final {S A}.
Arguments warned {S A}.
Arguments outcome {S A}.

Definition M (S A : Type) : Type := S -> Run S A.

Definition ret {S A} (a : A) : M S A := fun s => MkRun s [] (Ok a).

Definition bind {S A B} (m : M S A) (k : A -> M S B) : M S B :=
  fun s =>
    let r := m s in
    match outcome r with
    | Ok a =>
        let r' := k a (final r) in
        MkRun (final r') (warned r ++ warned r') (outcome r')
    | Raise e => MkRun (final r) (warned r) (Raise e)
    end.

Notation "'let!' x ':=' m 'in' k" := (bind m (fun x => k))
  (at level 10, x name, m at level 100, k at level 200, only parsing).
Notation "m >> k" := (bind m (fun _ => k))
  (at level 90, right associativity, only parsing).

(** A computation that touches no state. *)
Definition liftR {S A} (r : res A) : M S A := fun s => MkRun s [] r.

Definition warn {S} (w : UserWarning) : M S unit := fun s => MkRun s [w] (Ok tt).

Definition modify {S} (f : S -> S) : M S unit := fun s => MkRun (f s) [] (Ok tt).


Definition when {S} (b : bool) (m : M S unit) : M S unit :=
  if b then m else ret tt.

(** ** Template *)

Record Template : Type := MkTemplate {
  path : pyval;
  thinkcell_objects : list pyval
}.

(** [Template(path)]: the object list starts empty. *)
Definition Template_init (path : pyval) : Template := MkTemplate path [].

(** [self.thinkcell_objects.append(spec)] *)
Definition thinkcell_objects_append (spec : dict) : M Template unit :=
  modify (fun self => MkTemplate (path self) (thinkcell_objects self ++ [PDict spec])).

Definition add_textfield (name : strarg) (text : pyval) : M Template unit :=
  when (negb (is_str name)) (warn field_name_not_str) >>
  let spec : dict := [] in
  let spec := setitem spec "name" (PStr (py_str name)) in
  let! cell := liftR (transform_input text PNone) in
  let field_text := [cell] in
  let spec := setitem spec "table" (PList [PList field_text]) in
  thinkcell_objects_append spec.

(** The loop shared by [add_table], [add_chart] and [add_pie_chart]:
    [for data_list, color in zip(data, fill): spec["table"].append([...])]. *)
Definition append_rows (data : list (list pyval)) (fill : list pyval) (spec : dict)
  : res dict :=
  for_in
    (fun spec '(data_list, color) =>
       let* row := comprehension (fun el => transform_input el color) data_list in
       Ok (table_append spec (PList row)))
    (zip data fill) spec.

(** [fill = [None for _ in data]] when [fill is None]. *)
Definition default_fill (data : list (list pyval)) (fill : option (list pyval))
  : list pyval :=
  match fill with
  | None => map (fun _ => PNone) data
  | Some fill => fill
  end.

Definition add_table (name : strarg) (data : list (list pyval))
    (fill : option (list pyval)) : M Template unit :=
  let fill := default_fill data fill in
  let spec : dict := [] in
  let spec := setitem spec "name" (PStr (py_str name)) in
  let spec := setitem spec "table" (PList []) in
  let! spec := liftR (append_rows data fill spec) in
  thinkcell_objects_append spec.

Definition add_chart (name : strarg) (categories : list pyval)
    (data : list (list pyval)) (fill : option (list pyval))
    (first_row_blank : bool) : M Template unit :=
  when (negb (is_str name)) (warn chart_name_not_str) >>
  liftR (for_in
           (fun _ data_list =>
              if negb (length data_list =? length categories + 1) then
                Raise (ValueError (msg_row_size data_list (length data_list)
                                     (length categories + 1)))
              else Ok tt)
           data tt) >>
  liftR (match fill with
         | Some fill =>
             if negb (length fill =? length data) then
               Raise (ValueError (msg_fill_size fill (length fill) (length data)))
             else Ok tt
         | None => Ok tt
         end) >>
  let fill := default_fill data fill in
  let spec : dict := [] in
  let spec := setitem spec "name" (PStr (py_str name)) in
  let! transformed :=
    liftR (comprehension (fun element => transform_input element PNone) categories) in
  let chart_categories := PNone :: transformed in
  let spec := setitem spec "table" (PList [PList chart_categories]) in
  let spec := if first_row_blank then table_append spec (PList []) else spec in
  let! spec := liftR (append_rows data fill spec) in
  thinkcell_objects_append spec.

Definition add_pie_chart (name : strarg) (data : list (list pyval))
    (fill : option (list pyval)) : M Template unit :=
  liftR (for_in
           (fun _ row =>
              if negb (length row =? 2) then
                Raise (RuntimeError (msg_pie_shape (py_str name) data))
              else Ok tt)
           data tt) >>
  let fill := default_fill data fill in
  let spec : dict := [] in
  let spec := setitem spec "name" (PStr (py_str name)) in
  let spec := setitem spec "table" (PList [PList []]) in
  let! spec := liftR (append_rows data fill spec) in
  thinkcell_objects_append spec.

Definition serialize (self : Template) : pyval :=
  PDict [("template", path self); ("data", PList (thinkcell_objects self))].

(** ** Presentation *)

(** A [Presentation] holds references to [Template] instances, not copies:
    [loc] names an instance in the store. *)
Definition loc : Type := positive.

Record Presentation : Type := MkPresentation {
  slides : list loc
}.


(** A file written by [json.dump]: the whole JSON text of a value, or the
    start of that text, cut where the encoder met a value it cannot write
    (the file was emptied by [open] and the chunks written so far stay in
    it). *)
Inductive file : Type :=
| whole_text (o : pyval)
| cut_text (o : pyval).




(** What the methods of a [Presentation] can reach: the instance itself, the
    [Template] instances alive, and the files written. *)
Record Program : Type := MkProgram {
  self : Presentation;
  store : gmap loc Template;
  disk : gmap string file
}.


(** [template_name.endswith(suffix)]: a method of [str]. *)
Definition str_endswith (v : pyval) (suffix : string) : res bool :=
  match v with
  | PStr s => Ok (endswith s suffix)
  | _ => Raise (AttributeError (msg_no_attribute "endswith"))
  end.

Definition _verify_template (template_name : pyval) : res pyval :=
  if negb (isinstance template_name cls_str) then
    Raise (TypeError (msg_not_template template_name))
  else
    let* ends := str_endswith template_name ".pptx" in
    if negb ends then
      Raise (TypeError (msg_not_powerpoint template_name))
    else Ok template_name.

(** [template.path]; a reference to anything but a [Template] has no such
    attribute. *)
Definition template_path (template : loc) : M Program pyval :=
  fun s =>
    match store s !! template with
    | Some t => MkRun s [] (Ok (path t))
    | None => MkRun s [] (Raise (AttributeError (msg_no_attribute "path")))
    end.

(** [self.slides.append(template)] *)
Definition slides_append (template : loc) : M Program unit :=
  modify (fun s =>
    MkProgram (MkPresentation (slides (self s) ++ [template])) (store s) (disk s)).

Definition add_template (template : loc) : M Program unit :=
  let! p := template_path template in
  liftR (_verify_template p) >>
  slides_append template.





(** A method of [Template] called on the instance [template] refers to:
    what the method does to its [self] is done to the instance in the
    store, where every holder of the reference sees it. *)
Definition invoke {A} (template : loc) (method : M Template A) : M Program A :=
  fun s =>
    match store s !! template with
    | Some t =>
        let r := method t in
        MkRun (MkProgram (self s) (<[template := final r]> (store s)) (disk s))
              (warned r) (outcome r)
    | None => MkRun s [] (Raise (AttributeError (msg_no_attribute "method")))
    end.

(** The four [add_*] methods as calls. *)
Inductive add_call : Type :=
| call_add_textfield (name : strarg) (text : pyval)
| call_add_table (name : strarg) (data : list (list pyval)) (fill : option (list pyval))
| call_add_chart (name : strarg) (categories : list pyval) (data : list (list pyval))
    (fill : option (list pyval)) (first_row_blank : bool)
| call_add_pie_chart (name : strarg) (data : list (list pyval))
    (fill : option (list pyval)).

Definition perform (c : add_call) : M Template unit :=
  match c with
  | call_add_textfield name text => add_textfield name text
  | call_add_table name data fill => add_table name data fill
  | call_add_chart name categories data fill first_row_blank =>
      add_chart name categories data fill first_row_blank
  | call_add_pie_chart name data fill => add_pie_chart name data fill
  end.

(** ** Shapes used in the statements *)

(** The optional entry a cell carries for its colour. *)
Definition fill_part (color : pyval) : dict :=
  match color with
  | PNone => []
  | c => [("fill", c)]
  end.

(** A cell with one value tag, and the colour when there is one. *)
Definition cell (tag : string) (value color : pyval) : pyval :=
  PDict ((tag, value) :: fill_part color).

(** The text [strftime("%Y-%m-%d")] gives. *)
Definition date_text (year month day : nat) : string :=
  decimal year +:+ "-" +:+ zfill 2 (decimal month) +:+ "-"
  +:+ zfill 2 (decimal day).

Definition is_digit (c : ascii) : bool :=
  (48 <=? nat_of_ascii c) && (nat_of_ascii c <=? 57).

Definition all_digits (n : nat) (s : string) : bool :=
  (String.length s =? n) && forallb is_digit (String.list_ascii_of_string s).

(** Four digits, a dash, two digits, a dash, two digits. *)
Definition is_YYYY_MM_DD (s : string) : bool :=
  match String.list_ascii_of_string s with
  | [y1; y2; y3; y4; dash1; m1; m2; dash2; d1; d2] =>
      forallb is_digit [y1; y2; y3; y4; m1; m2; d1; d2]
      && Ascii.eqb dash1 "-" && Ascii.eqb dash2 "-"
  | _ => false
  end.

(** The two kinds of error the [add_*] methods raise, told apart by the
    place that raises: a value no cell can hold, and a row, category or
    fill count that does not fit. *)
Definition is_InvalidValueType (e : exn) : bool :=
  match e with
  | ValueError (msg_not_acceptable _) => true
  | _ => false
  end.

Definition is_InvalidShape (e : exn) : bool :=
  match e with
  | ValueError (msg_row_size _ _ _) => true
  | ValueError (msg_fill_size _ _ _) => true
  | RuntimeError (msg_pie_shape _ _) => true
  | _ => false
  end.

(** The table row a data row becomes. *)
Definition row_cells (data_list : list pyval) (color : pyval) : res (list pyval) :=
  comprehension (fun el => transform_input el color) data_list.

(** A Slide Object: a name and a table. *)
Definition slide_object (name : strarg) (table : list pyval) : pyval :=
  PDict [("name", PStr (py_str name)); ("table", PList table)].

(** The rows a table gets from its data: one per pair of the zip, each a
    list of cells in the colour of its row. *)
Definition table_rows (data : list (list pyval)) (fill : list pyval)
  : res (list pyval) :=
  comprehension
    (fun '(data_list, color) =>
       let* row := row_cells data_list color in
       Ok (PList row))
    (zip data fill).

(** An append that is all or nothing: with the table built the object is
    appended, with an exception the [Template] stays as it was. *)
Definition commit (name : strarg) (warnings : list UserWarning)
    (table : res (list pyval)) : M Template unit :=
  fun self =>
    match table with
    | Ok rows =>
        MkRun (MkTemplate (path self)
                 (thinkcell_objects self ++ [slide_object name rows]))
              warnings (Ok tt)
    | Raise e => MkRun self warnings (Raise e)
    end.

(** The two checks [add_chart] starts with. *)
Definition chart_checks (categories : list pyval) (data : list (list pyval))
    (fill : option (list pyval)) : res unit :=
  let* _ := for_in
              (fun _ data_list =>
                 if negb (length data_list =? length categories + 1) then
                   Raise (ValueError (msg_row_size data_list (length data_list)
                                        (length categories + 1)))
                 else Ok tt)
              data tt in
  match fill with
  | Some fill =>
      if negb (length fill =? length data) then
        Raise (ValueError (msg_fill_size fill (length fill) (length data)))
      else Ok tt
  | None => Ok tt
  end.

(** The table of each method, as a value. *)
Definition textfield_table (text : pyval) : res (list pyval) :=
  let* c := transform_input text PNone in
  Ok [PList [c]].

Definition chart_table (categories : list pyval) (data : list (list pyval))
    (fill : option (list pyval)) (first_row_blank : bool) : res (list pyval) :=
  let* _ := chart_checks categories data fill in
  let* header := row_cells categories PNone in
  let* rows := table_rows data (default_fill data fill) in
  Ok (PList (PNone :: header)
      :: (if first_row_blank then [PList []] else []) ++ rows).

Definition pie_check (name : strarg) (data : list (list pyval)) : res unit :=
  for_in
    (fun _ row =>
       if negb (length row =? 2) then
         Raise (RuntimeError (msg_pie_shape (py_str name) data))
       else Ok tt)
    data tt.

Definition pie_table (name : strarg) (data : list (list pyval))
    (fill : option (list pyval)) : res (list pyval) :=
  let* _ := pie_check name data in
  let* rows := table_rows data (default_fill data fill) in
  Ok (PList [] :: rows).

(** Name, warnings and table of a call. *)
Definition call_name (c : add_call) : strarg :=
  match c with
  | call_add_textfield name _ | call_add_table name _ _
  | call_add_chart name _ _ _ _ | call_add_pie_chart name _ _ => name
  end.

Definition call_warnings (c : add_call) : list UserWarning :=
  match c with
  | call_add_textfield name _ => if is_str name then [] else [field_name_not_str]
  | call_add_chart name _ _ _ _ => if is_str name then [] else [chart_name_not_str]
  | call_add_table _ _ _ | call_add_pie_chart _ _ _ => []
  end.

Definition call_table (c : add_call) : res (list pyval) :=
  match c with
  | call_add_textfield _ text => textfield_table text
  | call_add_table _ data fill => table_rows data (default_fill data fill)
  | call_add_chart _ categories data fill first_row_blank =>
      chart_table categories data fill first_row_blank
  | call_add_pie_chart name data fill => pie_table name data fill
  end.

(** ** More shapes for the statements *)

(** The values a cell can hold. *)
Definition supported (v : pyval) : bool :=
  isinstance_any v [cls_datetime; cls_str; cls_int; cls_float].

(** The cell of a supported value. *)
Definition to_cell (v color : pyval) : pyval :=
  match v with
  | PDatetime y m d _ _ _ _ => cell "date" (PStr (date_text y m d)) color
  | PStr _ => cell "string" v color
  | _ => cell "number" v color
  end.

(** A data row as a table row, every cell in the colour of the row. *)
Definition to_row (data_list : list pyval) (color : pyval) : pyval :=
  PList (map (fun el => to_cell el color) data_list).

(** Calls made one after the other; an exception ends the sequence. *)
Fixpoint perform_all (calls : list add_call) : M Template unit :=
  match calls with
  | [] => ret tt
  | c :: rest => perform c >> perform_all rest
  end.

(** Reading a date text back: the last two characters are the day, the
    two before the last dash the month, what comes before the dash in
    front of them the year. *)
Definition digit_value (c : ascii) : nat := nat_of_ascii c - 48.

Definition digits_value (digits : list ascii) : nat :=
  fold_left (fun n c => 10 * n + digit_value c) digits 0.

Definition parse_date_text (s : string) : option (nat * nat * nat) :=
  match rev (String.list_ascii_of_string s) with
  | d2 :: d1 :: _ :: m2 :: m1 :: _ :: year_reversed =>
      Some (digits_value (rev year_reversed),
            10 * digit_value m1 + digit_value m2,
            10 * digit_value d1 + digit_value d2)
  | _ => None
  end.

(** ** Programs that use the module *)



(** [add_template] for each reference of a list, in order. *)
Fixpoint add_templates (templates : list loc) : M Program unit :=
  match templates with
  | [] => ret tt
  | template :: rest => add_template template >> add_templates rest
  end.

(** ** Charts from dataframes *)

(** The argument of [add_chart_from_dataframe], as the method sees it: a
    pandas [DataFrame], through [dataframe.columns.to_list()] and
    [dataframe.values.tolist()]; or an object that lacks [columns] or
    [values], such as a list or a pandas [Series]. *)
Inductive frame_arg : Type :=
| DataFrame (columns : list pyval) (values : list (list pyval))
| not_DataFrame.

Inductive frame_message : Type :=
| msg_no_pandas
| msg_not_valid_frame
| msg_no_data.

(** Every [raise] of [add_chart_from_dataframe] itself comes before it
    touches the [Template]: the method either raises one of its own
    exceptions, or goes on with a call on [self]. *)
Inductive guarded (A : Type) : Type :=
| Goes_on (call : A)
| ImportError (m : frame_message)
| DataFrameError (m : frame_message).
Arguments Goes_on {A} call.
Arguments ImportError {A} m.
Arguments DataFrameError {A} m.

(** [PANDAS] is the flag the module sets when it imports pandas. *)
Definition add_chart_from_dataframe (PANDAS : bool) (name : strarg)
    (dataframe : frame_arg) (fill : option (list pyval))
    (first_row_blank : bool) : guarded (M Template unit) :=
  if negb PANDAS then ImportError msg_no_pandas
  else
    match dataframe with
    | not_DataFrame => DataFrameError msg_not_valid_frame
    | DataFrame columns values =>
        let categories := tail columns in
        let data := values in
        if negb (1 <=? length categories) then DataFrameError msg_no_data
        else if length data =? 0 then DataFrameError msg_no_data
        else Goes_on (add_chart name categories data fill first_row_blank)
    end.

(** * Properties *)

(** ** The cell transformer *)

Example transform_input_doc_number :
  transform_input (PInt 5) PNone = Ok (PDict [("number", PInt 5)]).
Proof. reflexivity. Qed.

Example transform_input_doc_string :
  transform_input (PStr "test") PNone = Ok (PDict [("string", PStr "test")]).
Proof. reflexivity. Qed.

Example transform_input_test_date :
  transform_input (PDatetime 2012 9 16 0 0 0 0) PNone
  = Ok (PDict [("date", PStr "2012-09-16")]).
Proof. vm_compute. reflexivity. Qed.

Lemma fill_part_local (color : pyval) :
  (if is_None color then [] else [("fill", color)]) = fill_part color.
Proof. destruct color; reflexivity. Qed.

Lemma append_empty_r (s : string) : s +:+ "" = s.
Proof.
  induction s as [|c s IH]; [reflexivity|].
  change (String c s +:+ "") with (String c (s +:+ "")). now rewrite IH.
Qed.

Lemma strftime_date_text (year month day : nat) :
  strftime_fields year month day "%Y-%m-%d" = date_text year month day.
Proof.
  unfold date_text. cbn [strftime_fields]. rewrite append_empty_r. reflexivity.
Qed.

Lemma transform_input_datetime (y m d hh mm ss us : nat) (color : pyval) :
  transform_input (PDatetime y m d hh mm ss us) color
  = Ok (cell "date" (PStr (date_text y m d)) color).
Proof.
  unfold transform_input, cell. rewrite fill_part_local.
  cbn [isinstance issubclass type_of mro existsb pyclass_eqb orb strftime bindR].
  rewrite strftime_date_text. reflexivity.
Qed.

Lemma transform_input_str (s : string) (color : pyval) :
  transform_input (PStr s) color = Ok (cell "string" (PStr s) color).
Proof.
  unfold transform_input, cell. rewrite fill_part_local. reflexivity.
Qed.

Lemma transform_input_int (n : Z) (color : pyval) :
  transform_input (PInt n) color = Ok (cell "number" (PInt n) color).
Proof.
  unfold transform_input, cell. rewrite fill_part_local. reflexivity.
Qed.

Lemma transform_input_float (x : spec_float) (color : pyval) :
  transform_input (PFloat x) color = Ok (cell "number" (PFloat x) color).
Proof.
  unfold transform_input, cell. rewrite fill_part_local. reflexivity.
Qed.

Lemma transform_input_bool (b : bool) (color : pyval) :
  transform_input (PBool b) color = Ok (cell "number" (PBool b) color).
Proof.
  unfold transform_input, cell. rewrite fill_part_local. reflexivity.
Qed.

Lemma transform_input_other (v color : pyval) :
  isinstance_any v [cls_datetime; cls_str; cls_int; cls_float] = false ->
  transform_input v color = Raise (ValueError (msg_not_acceptable v)).
Proof.
  destruct v; cbn; intros H; try discriminate H; reflexivity.
Qed.

(** Whatever [transform_input] raises is the error of a value no cell can
    hold, and it names that value. *)
Lemma transform_input_raises (v color : pyval) (e : exn) :
  transform_input v color = Raise e -> e = ValueError (msg_not_acceptable v).
Proof.
  destruct v; cbn; intros H; try discriminate H; congruence.
Qed.

(** *** The date text *)

Lemma year_digits_checked :
  forallb (fun y => all_digits 4 (decimal y)) (seq (10 * 100) (90 * 100)) = true.
Proof. vm_compute. reflexivity. Qed.

Lemma two_digits_checked :
  forallb (fun n => all_digits 2 (zfill 2 (decimal n))) (seq 0 100) = true.
Proof. vm_compute. reflexivity. Qed.

Lemma year_digits (y : nat) :
  10 * 100 <= y < 100 * 100 -> all_digits 4 (decimal y) = true.
Proof.
  intros Hy. pose proof year_digits_checked as H.
  rewrite forallb_forall in H. apply H. apply in_seq. lia.
Qed.

Lemma two_digits (n : nat) : n <= 99 -> all_digits 2 (zfill 2 (decimal n)) = true.
Proof.
  intros Hn. pose proof two_digits_checked as H.
  rewrite forallb_forall in H. apply H. apply in_seq. lia.
Qed.

Lemma dashed_digits (a b c : string) :
  all_digits 4 a = true -> all_digits 2 b = true -> all_digits 2 c = true ->
  is_YYYY_MM_DD (a +:+ "-" +:+ b +:+ "-" +:+ c) = true.
Proof.
  unfold all_digits. intros Ha Hb Hc.
  apply andb_prop in Ha as [La Da]. apply andb_prop in Hb as [Lb Db].
  apply andb_prop in Hc as [Lc Dc].
  destruct a as [|a1 [|a2 [|a3 [|a4 [|]]]]]; try discriminate La.
  destruct b as [|b1 [|b2 [|]]]; try discriminate Lb.
  destruct c as [|c1 [|c2 [|]]]; try discriminate Lc.
  cbn in Da, Db, Dc.
  repeat match goal with
         | H : _ && _ = true |- _ => apply andb_prop in H as [? ?]
         end.
  cbv beta iota zeta delta [String.append String.list_ascii_of_string is_YYYY_MM_DD].
  cbn [forallb].
  repeat match goal with
         | H : is_digit _ = true |- _ => rewrite H; clear H
         end.
  reflexivity.
Qed.

Lemma date_text_shape (y m d : nat) :
  10 * 100 <= y < 100 * 100 -> m <= 12 -> d <= 31 ->
  is_YYYY_MM_DD (date_text y m d) = true.
Proof.
  intros Hy Hm Hd. unfold date_text.
  apply dashed_digits; [apply year_digits | apply two_digits | apply two_digits]; lia.
Qed.

(** The text of a ["date"] cell is what [strftime("%Y-%m-%d")] gives, and
    before the year 1000 that is not YYYY-MM-DD: the year is written
    without leading zeros, so [datetime(5, 1, 1)] gives ["5-01-01"] and
    [datetime(999, 12, 31)] gives ["999-12-31"]. *)
Lemma transform_input_year_below_1000 :
  transform_input (PDatetime 5 1 1 0 0 0 0) PNone
  = Ok (PDict [("date", PStr "5-01-01")])
  /\ is_YYYY_MM_DD "5-01-01" = false
  /\ transform_input (PDatetime 999 12 31 0 0 0 0) (PStr "#70AD47")
     = Ok (PDict [("date", PStr "999-12-31"); ("fill", PStr "#70AD47")])
  /\ is_YYYY_MM_DD "999-12-31" = false.
Proof. repeat split; vm_compute; reflexivity. Qed.

(** C1. [transform_input] returns one tagged cell fixed by the class of the
    value: a [datetime] gives a ["date"] cell whose text is YYYY-MM-DD for
    every year of four digits, a [str] a ["string"] cell, an [int] or a
    [float] a ["number"] cell holding the value itself; the cell carries
    ["fill"] exactly when the colour is not [None]; a value of no such
    class (a list, say) raises the [ValueError] of an unacceptable value;
    and the call changes no state and gives no warning. *)
Theorem transform_input_classifies (color : pyval) :
  (forall y m d hh mm ss us,
      transform_input (PDatetime y m d hh mm ss us) color
      = Ok (cell "date" (PStr (date_text y m d)) color)
      /\ (10 * 100 <= y < 100 * 100 -> m <= 12 -> d <= 31 ->
          is_YYYY_MM_DD (date_text y m d) = true))
  /\ (forall s, transform_input (PStr s) color = Ok (cell "string" (PStr s) color))
  /\ (forall n, transform_input (PInt n) color = Ok (cell "number" (PInt n) color))
  /\ (forall x, transform_input (PFloat x) color = Ok (cell "number" (PFloat x) color))
  /\ (forall v,
        isinstance_any v [cls_datetime; cls_str; cls_int; cls_float] = false ->
        transform_input v color = Raise (ValueError (msg_not_acceptable v))
        /\ is_InvalidValueType (ValueError (msg_not_acceptable v)) = true)
  /\ (forall v c,
        transform_input v color = Ok c ->
        isinstance_any v [cls_datetime; cls_str; cls_int; cls_float] = true
        /\ exists tag value, c = cell tag value color
                             /\ (tag = "date" \/ tag = "string" \/ tag = "number"))
  /\ transform_input (PList [PInt 3; PInt 4]) color
     = Raise (ValueError (msg_not_acceptable (PList [PInt 3; PInt 4])))
  /\ (fill_part color = [] <-> color = PNone)
  /\ (color <> PNone -> fill_part color = [("fill", color)])
  /\ (forall v (S : Type) (s : S),
        final (liftR (transform_input v color) s) = s
        /\ warned (liftR (transform_input v color) s) = []).
Proof.
  split; [intros y m d hh mm ss us; split;
          [apply transform_input_datetime | now apply date_text_shape]|].
  split; [intros s; apply transform_input_str|].
  split; [intros n; apply transform_input_int|].
  split; [intros x; apply transform_input_float|].
  split; [intros v Hv; split; [now apply transform_input_other | reflexivity]|].
  split.
  { intros v c H. destruct v; try discriminate H; (split; [reflexivity|]).
    - rewrite transform_input_bool in H. injection H as <-. eauto 6.
    - rewrite transform_input_int in H. injection H as <-. eauto 6.
    - rewrite transform_input_float in H. injection H as <-. eauto 6.
    - rewrite transform_input_str in H. injection H as <-. eauto 6.
    - rewrite transform_input_datetime in H. injection H as <-. eauto 6. }
  split; [reflexivity|].
  split; [destruct color; cbn; split; congruence|].
  split; [destruct color; cbn; congruence|].
  intros v S s. split; reflexivity.
Qed.

Lemma transform_input_classifies_witness :
  is_YYYY_MM_DD (date_text 2012 9 16) = true
  /\ transform_input PNone (PStr "#70AD47")
     = Raise (ValueError (msg_not_acceptable PNone))
  /\ fill_part (PStr "#70AD47") = [("fill", PStr "#70AD47")].
Proof.
  destruct (transform_input_classifies (PStr "#70AD47"))
    as (Hdate & _ & _ & _ & Hother & _ & _ & _ & Hfill & _).
  split; [|split].
  - apply (Hdate 2012 9 16 0 0 0 0); cbn; lia.
  - apply Hother. reflexivity.
  - apply Hfill. discriminate.
Defined.

(** A row of booleans becomes a row of ["number"] cells. *)
Lemma row_cells_bools (bs : list bool) (color : pyval) :
  row_cells (map PBool bs) color
  = Ok (map (fun b => cell "number" (PBool b) color) bs).
Proof.
  unfold row_cells. induction bs as [|b bs IH]; [reflexivity|].
  cbn [map comprehension]. rewrite transform_input_bool, IH. reflexivity.
Qed.

(** C10. A [bool] is an [int] to [isinstance], and no branch of the
    classifier sets it apart: [transform_input] does not raise on [True] or
    [False] but tags it ["number"], so every [add_*] method stores it as a
    number. *)
Theorem bool_serialized_as_number (b : bool) (color : pyval) (name : strarg)
    (t : Template) :
  isinstance (PBool b) cls_int = true
  /\ transform_input (PBool b) color = Ok (cell "number" (PBool b) color)
  /\ (forall e, transform_input (PBool b) color <> Raise e)
  /\ (forall bs, row_cells (map PBool bs) color
                 = Ok (map (fun b => cell "number" (PBool b) color) bs))
  /\ (outcome (add_textfield name (PBool b) t) = Ok tt
      /\ thinkcell_objects (final (add_textfield name (PBool b) t))
         = thinkcell_objects t
           ++ [slide_object name [PList [cell "number" (PBool b) PNone]]])
  /\ (outcome (add_table name [[PBool b]] (Some [color]) t) = Ok tt
      /\ thinkcell_objects (final (add_table name [[PBool b]] (Some [color]) t))
         = thinkcell_objects t
           ++ [slide_object name [PList [cell "number" (PBool b) color]]])
  /\ (forall first_row_blank,
      outcome (add_chart name [PBool b] [[PBool b; PBool b]] (Some [color])
                 first_row_blank t) = Ok tt
      /\ thinkcell_objects
           (final (add_chart name [PBool b] [[PBool b; PBool b]] (Some [color])
                     first_row_blank t))
         = thinkcell_objects t
           ++ [slide_object name
                 (PList [PNone; cell "number" (PBool b) PNone]
                  :: (if first_row_blank then [PList []] else [])
                  ++ [PList [cell "number" (PBool b) color;
                             cell "number" (PBool b) color]])])
  /\ (outcome (add_pie_chart name [[PBool b; PBool b]] (Some [color]) t) = Ok tt
      /\ thinkcell_objects
           (final (add_pie_chart name [[PBool b; PBool b]] (Some [color]) t))
         = thinkcell_objects t
           ++ [slide_object name
                 [PList [];
                  PList [cell "number" (PBool b) color;
                         cell "number" (PBool b) color]]]).
Proof.
  split; [reflexivity|].
  split; [apply transform_input_bool|].
  split; [intros e; rewrite transform_input_bool; discriminate|].
  split; [intros bs; apply row_cells_bools|].
  split; [destruct name; split; reflexivity|].
  split; [destruct name, color; split; reflexivity|].
  split; [intros [|]; destruct name, color; split; reflexivity|].
  destruct name, color; split; reflexivity.
Qed.

(** ** The [add_*] methods as all-or-nothing appends *)

Lemma spec_two_keys (n v : pyval) :
  setitem (setitem [] "name" n) "table" v = [("name", n); ("table", v)].
Proof. reflexivity. Qed.

Lemma table_append_row (n : pyval) (table : list pyval) (row : pyval) :
  table_append [("name", n); ("table", PList table)] row
  = [("name", n); ("table", PList (table ++ [row]))].
Proof. reflexivity. Qed.

Lemma append_rows_table (rows : list (list pyval * pyval)) (n : pyval)
    (table : list pyval) :
  for_in
    (fun spec '(data_list, color) =>
       let* row := comprehension (fun el => transform_input el color) data_list in
       Ok (table_append spec (PList row)))
    rows [("name", n); ("table", PList table)]
  = let* new := comprehension
                  (fun '(data_list, color) =>
                     let* row := row_cells data_list color in
                     Ok (PList row))
                  rows in
    Ok [("name", n); ("table", PList (table ++ new))].
Proof.
  revert table. induction rows as [|[data_list color] rows IH]; intros table.
  - cbn. now rewrite app_nil_r.
  - cbn [for_in comprehension]. unfold row_cells.
    destruct (comprehension _ data_list) as [row|e]; [|reflexivity].
    cbn [bindR]. rewrite table_append_row, IH. destruct (comprehension _ rows) as [new|e]; [|reflexivity].
    cbn [bindR]. now rewrite <- app_assoc.
Qed.

Lemma append_rows_spec (data : list (list pyval)) (fill : list pyval)
    (n : pyval) (table : list pyval) :
  append_rows data fill [("name", n); ("table", PList table)]
  = let* new := table_rows data fill in
    Ok [("name", n); ("table", PList (table ++ new))].
Proof. apply append_rows_table. Qed.

Lemma add_textfield_commit (name : strarg) (text : pyval) (t : Template) :
  add_textfield name text t
  = commit name (if is_str name then [] else [field_name_not_str])
      (textfield_table text) t.
Proof.
  unfold add_textfield, textfield_table, commit, bind, when, warn, ret, liftR,
    thinkcell_objects_append, modify.
  destruct (is_str name), (transform_input text PNone); reflexivity.
Qed.

Lemma add_table_commit (name : strarg) (data : list (list pyval))
    (fill : option (list pyval)) (t : Template) :
  add_table name data fill t
  = commit name [] (table_rows data (default_fill data fill)) t.
Proof.
  unfold add_table, commit, bind, liftR, thinkcell_objects_append, modify.
  rewrite spec_two_keys, append_rows_spec.
  destruct (table_rows _ _); reflexivity.
Qed.

Lemma add_chart_commit (name : strarg) (categories : list pyval)
    (data : list (list pyval)) (fill : option (list pyval))
    (first_row_blank : bool) (t : Template) :
  add_chart name categories data fill first_row_blank t
  = commit name (if is_str name then [] else [chart_name_not_str])
      (chart_table categories data fill first_row_blank) t.
Proof.
  unfold add_chart, chart_table, chart_checks, commit, bind, when, warn, ret,
    liftR, thinkcell_objects_append, modify, row_cells.
  destruct (is_str name); cbn [negb outcome final warned app];
    (destruct (for_in _ data tt) as [[]|e]; [|reflexivity]);
    cbn [bindR outcome final warned app];
    (destruct fill as [fill|];
     [destruct (negb (length fill =? length data)); [reflexivity|]|]);
    cbn [bindR outcome final warned app];
    (destruct (comprehension _ categories) as [header|e]; [|reflexivity]);
    cbn [bindR outcome final warned app];
    rewrite spec_two_keys;
    destruct first_row_blank;
    rewrite ?table_append_row, append_rows_spec;
    destruct (table_rows _ _); reflexivity.
Qed.

Lemma add_pie_chart_commit (name : strarg) (data : list (list pyval))
    (fill : option (list pyval)) (t : Template) :
  add_pie_chart name data fill t = commit name [] (pie_table name data fill) t.
Proof.
  unfold add_pie_chart, pie_table, pie_check, commit, bind, liftR,
    thinkcell_objects_append, modify.
  destruct (for_in _ data tt) as [[]|e]; [|reflexivity].
  cbn [bindR outcome final warned app].
  rewrite spec_two_keys, append_rows_spec. destruct (table_rows _ _); reflexivity.
Qed.

Lemma perform_commit (c : add_call) (t : Template) :
  perform c t = commit (call_name c) (call_warnings c) (call_table c) t.
Proof.
  destruct c; cbn [perform call_name call_warnings call_table].
  - apply add_textfield_commit.
  - apply add_table_commit.
  - apply add_chart_commit.
  - apply add_pie_chart_commit.
Qed.

(** ** What can be raised, and when *)

(** A checking loop reports the first element it rejects. *)
Lemma check_loop {A} (bad : A -> bool) (err : A -> exn) (l : list A) :
  for_in (fun _ x => if bad x then Raise (err x) else Ok tt) l tt
  = match find bad l with
    | Some x => Raise (err x)
    | None => Ok tt
    end.
Proof.
  induction l as [|x l IH]; [reflexivity|].
  cbn [for_in find]. destruct (bad x); [reflexivity|]. exact IH.
Qed.

Lemma find_Exists {A} (bad : A -> bool) (l : list A) :
  (exists x, find bad l = Some x) <-> Exists (fun x => bad x = true) l.
Proof.
  split.
  - intros [x Hx]. apply find_some in Hx as [Hin Hb].
    apply List.Exists_exists. exists x. auto.
  - intros H. apply List.Exists_exists in H as (x & Hin & Hb).
    destruct (find bad l) as [y|] eqn:Hf; [eauto|].
    pose proof (find_none _ _ Hf x Hin). congruence.
Qed.

Lemma row_cells_raises (data_list : list pyval) (color : pyval) (e : exn) :
  row_cells data_list color = Raise e -> is_InvalidValueType e = true.
Proof.
  unfold row_cells. induction data_list as [|v l IH]; [discriminate|].
  cbn [comprehension]. destruct (transform_input v color) eqn:Hv.
  - cbn [bindR]. destruct (comprehension _ l); [discriminate|].
    cbn [bindR]. intros [= <-]. now apply IH.
  - cbn [bindR]. intros [= <-].
    apply transform_input_raises in Hv as ->. reflexivity.
Qed.

Lemma table_rows_raises (data : list (list pyval)) (fill : list pyval) (e : exn) :
  table_rows data fill = Raise e -> is_InvalidValueType e = true.
Proof.
  unfold table_rows. induction (zip data fill) as [|[data_list color] l IH];
    [discriminate|].
  cbn [comprehension]. destruct (row_cells data_list color) eqn:Hr.
  - cbn [bindR]. destruct (comprehension _ l); [discriminate|].
    cbn [bindR]. intros [= <-]. now apply IH.
  - cbn [bindR]. intros [= <-]. now apply row_cells_raises in Hr.
Qed.

Lemma chart_checks_result (categories : list pyval) (data : list (list pyval))
    (fill : option (list pyval)) :
  chart_checks categories data fill
  = match find (fun row => negb (length row =? length categories + 1)) data with
    | Some row =>
        Raise (ValueError (msg_row_size row (length row) (length categories + 1)))
    | None =>
        match fill with
        | Some f =>
            if negb (length f =? length data) then
              Raise (ValueError (msg_fill_size f (length f) (length data)))
            else Ok tt
        | None => Ok tt
        end
    end.
Proof.
  unfold chart_checks.
  rewrite (check_loop (fun row => negb (length row =? length categories + 1))
             (fun row => ValueError (msg_row_size row (length row)
                                       (length categories + 1)))).
  destruct (find _ data); reflexivity.
Qed.

Lemma chart_checks_raise_iff (categories : list pyval) (data : list (list pyval))
    (fill : option (list pyval)) :
  (exists e, chart_checks categories data fill = Raise e)
  <-> Exists (fun row => length row <> length categories + 1) data
      \/ exists f, fill = Some f /\ length f <> length data.
Proof.
  rewrite chart_checks_result.
  set (bad := fun row : list pyval => negb (length row =? length categories + 1)).
  assert (Hbad : forall row, bad row = true <-> length row <> length categories + 1).
  { intros row. unfold bad. rewrite negb_true_iff. apply Nat.eqb_neq. }
  split.
  - intros [e He]. destruct (find bad data) as [row|] eqn:Hf.
    + left. apply find_some in Hf as [Hin Hb]. apply List.Exists_exists.
      exists row. split; [exact Hin | now apply Hbad].
    + right. destruct fill as [f|]; [|discriminate].
      exists f. split; [reflexivity|].
      destruct (length f =? length data) eqn:Hl; [discriminate|].
      now apply Nat.eqb_neq.
  - intros [Hrow | (f & -> & Hlen)].
    + assert (Exists (fun row => bad row = true) data) as Hex.
      { eapply Exists_impl; [exact Hrow|]. intros row. apply Hbad. }
      apply find_Exists in Hex as [row ->]. eauto.
    + destruct (find bad data); [eauto|].
      apply Nat.eqb_neq in Hlen. rewrite Hlen. eauto.
Qed.

Lemma chart_checks_raises (categories : list pyval) (data : list (list pyval))
    (fill : option (list pyval)) (e : exn) :
  chart_checks categories data fill = Raise e ->
  is_InvalidShape e = true /\ exists m, e = ValueError m.
Proof.
  rewrite chart_checks_result. destruct (find _ data).
  - intros [= <-]. eauto.
  - destruct fill as [f|]; [|discriminate].
    destruct (negb _); [|discriminate]. intros [= <-]. eauto.
Qed.

Lemma InvalidValueType_not_shape (e : exn) :
  is_InvalidValueType e = true -> is_InvalidShape e = false.
Proof. destruct e as [[]| | |]; cbn; congruence. Qed.

Lemma chart_table_raises (categories : list pyval) (data : list (list pyval))
    (fill : option (list pyval)) (first_row_blank : bool) (e : exn) :
  chart_table categories data fill first_row_blank = Raise e ->
  (chart_checks categories data fill = Raise e /\ is_InvalidShape e = true)
  \/ (chart_checks categories data fill = Ok tt /\ is_InvalidValueType e = true).
Proof.
  unfold chart_table. destruct (chart_checks categories data fill) as [[]|e'] eqn:Hc.
  - cbn [bindR]. intros H. right. split; [reflexivity|].
    destruct (row_cells categories PNone) eqn:Hh.
    + cbn [bindR] in H. destruct (table_rows data _) eqn:Hr; [discriminate|].
      injection H as <-. now apply table_rows_raises in Hr.
    + injection H as <-. now apply row_cells_raises in Hh.
  - cbn [bindR]. intros [= <-]. left. split; [reflexivity|].
    now apply chart_checks_raises in Hc.
Qed.

(** C2. [add_chart] raises the [ValueError] of a wrong shape exactly when
    some data row is not one longer than the categories, or a fill list is
    given whose length is not the number of data rows. *)
Theorem add_chart_InvalidShape_iff (name : strarg) (categories : list pyval)
    (data : list (list pyval)) (fill : option (list pyval))
    (first_row_blank : bool) (t : Template) :
  (exists m,
      outcome (add_chart name categories data fill first_row_blank t)
      = Raise (ValueError m)
      /\ is_InvalidShape (ValueError m) = true)
  <-> Exists (fun data_list => length data_list <> length categories + 1) data
      \/ exists f, fill = Some f /\ length f <> length data.
Proof.
  rewrite add_chart_commit, <- chart_checks_raise_iff. unfold commit.
  split.
  - intros (m & Hout & Hshape).
    destruct (chart_table categories data fill first_row_blank) eqn:Ht;
      [discriminate|].
    injection Hout as ->.
    apply chart_table_raises in Ht as [[Hc _] | [_ Hv]]; [eauto|].
    apply InvalidValueType_not_shape in Hv. congruence.
  - intros [e He]. destruct (chart_checks_raises _ _ _ _ He) as [Hs [m ->]].
    exists m. split; [|exact Hs].
    unfold chart_table. rewrite He. reflexivity.
Qed.

(** The other [ValueError] of [add_chart]: rows and fill of the right
    sizes, and a cell that holds a list. *)
Example add_chart_bad_cell :
  outcome
    (add_chart (a_str "Cool Name bro") [PStr "Alpha"; PStr "bravo"]
       [[PInt 3; PInt 4; PList []]; [PInt 2; PStr "adokf"; PInt 4]]
       (Some [PStr "#70AD47"; PStr "#ED7D31"]) true
       (Template_init (PStr "example.pptx")))
  = Raise (ValueError (msg_not_acceptable (PList []))).
Proof. reflexivity. Qed.

Lemma pie_check_result (name : strarg) (data : list (list pyval)) :
  pie_check name data
  = match find (fun row => negb (length row =? 2)) data with
    | Some _ => Raise (RuntimeError (msg_pie_shape (py_str name) data))
    | None => Ok tt
    end.
Proof.
  unfold pie_check.
  apply (check_loop (fun row => negb (length row =? 2))
           (fun _ => RuntimeError (msg_pie_shape (py_str name) data))).
Qed.

Lemma pie_table_raises (name : strarg) (data : list (list pyval))
    (fill : option (list pyval)) (e : exn) :
  pie_table name data fill = Raise e ->
  (pie_check name data = Raise e
   /\ e = RuntimeError (msg_pie_shape (py_str name) data))
  \/ (pie_check name data = Ok tt /\ is_InvalidValueType e = true).
Proof.
  unfold pie_table. rewrite pie_check_result. destruct (find _ data).
  - cbn [bindR]. intros [= <-]. left. split; reflexivity.
  - cbn [bindR]. intros H. right. split; [reflexivity|].
    destruct (table_rows data _) eqn:Hr; [discriminate|].
    injection H as <-. now apply table_rows_raises in Hr.
Qed.

Lemma textfield_table_raises (text : pyval) (e : exn) :
  textfield_table text = Raise e -> is_InvalidValueType e = true.
Proof.
  unfold textfield_table. destruct (transform_input text PNone) eqn:Hv;
    [discriminate|].
  intros [= <-]. apply transform_input_raises in Hv as ->. reflexivity.
Qed.

Lemma call_table_raises (c : add_call) (e : exn) :
  call_table c = Raise e ->
  is_InvalidValueType e = true \/ is_InvalidShape e = true.
Proof.
  destruct c; cbn [call_table]; intros H.
  - left. now apply textfield_table_raises in H.
  - left. now apply table_rows_raises in H.
  - apply chart_table_raises in H as [[_ H] | [_ H]]; auto.
  - apply pie_table_raises in H as [[_ ->] | [_ H]]; auto.
Qed.

(** C5. Every [add_*] call is all or nothing: when [add_textfield],
    [add_table], [add_chart] or [add_pie_chart] raises, for a value no cell
    can hold or for a shape that does not fit, the [Template] and its list
    of objects are as they were before the call, seen from the method and
    seen through any reference to the instance. *)
Theorem add_calls_atomic (c : add_call) (t : Template) (e : exn) :
  outcome (perform c t) = Raise e ->
  final (perform c t) = t
  /\ thinkcell_objects (final (perform c t)) = thinkcell_objects t
  /\ (is_InvalidValueType e = true \/ is_InvalidShape e = true)
  /\ forall (s : Program) (template : loc),
       store s !! template = Some t ->
       outcome (invoke template (perform c) s) = Raise e
       /\ final (invoke template (perform c) s) = s.
Proof.
  rewrite perform_commit. unfold commit.
  destruct (call_table c) as [rows|e'] eqn:Ht; [discriminate|].
  cbn [outcome final]. intros [= ->].
  split; [reflexivity|]. split; [reflexivity|].
  split; [now apply call_table_raises in Ht|].
  intros s template Hs. unfold invoke. rewrite Hs, perform_commit.
  unfold commit. rewrite Ht. cbn [outcome final].
  split; [reflexivity|]. rewrite insert_id by exact Hs. now destruct s.
Qed.

Lemma add_calls_atomic_witness :
  outcome
    (perform
       (call_add_table (a_str "nice table")
          [[PStr "A1"; PStr "A2"]; [PStr "B1"; PList []]] None)
       (MkTemplate (PStr "example.pptx")
          [slide_object (a_str "Title")
             [PList [cell "string" (PStr "A great slide") PNone]]]))
  = Raise (ValueError (msg_not_acceptable (PList [])))
  /\ thinkcell_objects
       (final
          (perform
             (call_add_table (a_str "nice table")
                [[PStr "A1"; PStr "A2"]; [PStr "B1"; PList []]] None)
             (MkTemplate (PStr "example.pptx")
                [slide_object (a_str "Title")
                   [PList [cell "string" (PStr "A great slide") PNone]]])))
     = [slide_object (a_str "Title")
          [PList [cell "string" (PStr "A great slide") PNone]]].
Proof.
  split; [reflexivity|].
  apply (add_calls_atomic
           (call_add_table (a_str "nice table")
              [[PStr "A1"; PStr "A2"]; [PStr "B1"; PList []]] None)
           (MkTemplate (PStr "example.pptx")
              [slide_object (a_str "Title")
                 [PList [cell "string" (PStr "A great slide") PNone]]])
           (ValueError (msg_not_acceptable (PList [])))).
  reflexivity.
Defined.

(** ** The chart of the test suite *)

(** C4. [add_chart] with categories ["Alpha", "bravo"], data
    [[3, 4, datetime(2012, 9, 16)], [2, "adokf", 4]] and
    [first_row_blank=True], then [serialize]: the table is the header of
    [None] and the two category cells, one empty row, then the two data
    rows, in that order. *)
Theorem add_chart_serialize_rows (name : strarg) (t : Template) :
  let r := add_chart name [PStr "Alpha"; PStr "bravo"]
             [[PInt 3; PInt 4; PDatetime 2012 9 16 0 0 0 0];
              [PInt 2; PStr "adokf"; PInt 4]]
             None true t in
  outcome r = Ok tt
  /\ serialize (final r)
     = PDict
         [("template", path t);
          ("data",
           PList
             (thinkcell_objects t
              ++ [PDict
                    [("name", PStr (py_str name));
                     ("table",
                      PList
                        [PList [PNone;
                                PDict [("string", PStr "Alpha")];
                                PDict [("string", PStr "bravo")]];
                         PList [];
                         PList [PDict [("number", PInt 3)];
                                PDict [("number", PInt 4)];
                                PDict [("date", PStr "2012-09-16")]];
                         PList [PDict [("number", PInt 2)];
                                PDict [("string", PStr "adokf")];
                                PDict [("number", PInt 4)]]])]]))].
Proof.
  intros r. subst r. rewrite add_chart_commit.
  assert (chart_table [PStr "Alpha"; PStr "bravo"]
            [[PInt 3; PInt 4; PDatetime 2012 9 16 0 0 0 0];
             [PInt 2; PStr "adokf"; PInt 4]] None true
          = Ok [PList [PNone;
                       PDict [("string", PStr "Alpha")];
                       PDict [("string", PStr "bravo")]];
                PList [];
                PList [PDict [("number", PInt 3)];
                       PDict [("number", PInt 4)];
                       PDict [("date", PStr "2012-09-16")]];
                PList [PDict [("number", PInt 2)];
                       PDict [("string", PStr "adokf")];
                       PDict [("number", PInt 4)]]]) as Htable
    by (vm_compute; reflexivity).
  unfold commit. rewrite Htable. split; reflexivity.
Qed.

(** With a plain [date] in place of the [datetime], the call raises: a
    [date] is no [datetime], [str], [int] or [float].  Nothing is appended,
    and [serialize] shows no table. *)
Lemma add_chart_plain_date_raises :
  add_chart (a_str "Cool Name bro") [PStr "Alpha"; PStr "bravo"]
    [[PInt 3; PInt 4; PDate 2012 9 16]; [PInt 2; PStr "adokf"; PInt 4]]
    None true (Template_init (PStr "example.pptx"))
  = MkRun (Template_init (PStr "example.pptx")) []
      (Raise (ValueError (msg_not_acceptable (PDate 2012 9 16))))
  /\ serialize
       (final
          (add_chart (a_str "Cool Name bro") [PStr "Alpha"; PStr "bravo"]
             [[PInt 3; PInt 4; PDate 2012 9 16]; [PInt 2; PStr "adokf"; PInt 4]]
             None true (Template_init (PStr "example.pptx"))))
     = PDict [("template", PStr "example.pptx"); ("data", PList [])].
Proof. split; reflexivity. Qed.

(** The same call on the fresh [Template] of the test, as the test compares it. *)
Example test_add_chart :
  serialize
    (final (add_chart (a_str "Cool Name bro") [PStr "Alpha"; PStr "bravo"]
              [[PInt 3; PInt 4; PDatetime 2012 9 16 0 0 0 0];
               [PInt 2; PStr "adokf"; PInt 4]]
              None true (Template_init (PStr "example.pptx"))))
  = PDict
      [("template", PStr "example.pptx");
       ("data",
        PList
          [PDict
             [("name", PStr "Cool Name bro");
              ("table",
               PList
                 [PList [PNone;
                         PDict [("string", PStr "Alpha")];
                         PDict [("string", PStr "bravo")]];
                  PList [];
                  PList [PDict [("number", PInt 3)];
                         PDict [("number", PInt 4)];
                         PDict [("date", PStr "2012-09-16")]];
                  PList [PDict [("number", PInt 2)];
                         PDict [("string", PStr "adokf")];
                         PDict [("number", PInt 4)]]])]])].
Proof. vm_compute. reflexivity. Qed.

(** A plain [date] is not a [datetime]: the classifier turns it down. *)
Example transform_input_plain_date :
  transform_input (PDate 2012 9 16) PNone
  = Raise (ValueError (msg_not_acceptable (PDate 2012 9 16))).
Proof. reflexivity. Qed.

(** ** Fill lists and the zip *)

Lemma comprehension_length {A B} (f : A -> res B) (l : list A) (bs : list B) :
  comprehension f l = Ok bs -> length bs = length l.
Proof.
  revert bs. induction l as [|a l IH]; intros bs.
  - intros [= <-]. reflexivity.
  - cbn [comprehension]. destruct (f a); [|discriminate].
    cbn [bindR]. destruct (comprehension f l); [|discriminate].
    cbn [bindR]. intros [= <-]. cbn. f_equal. now apply IH.
Qed.

(** The zip stops at the shorter list: the table gets as many rows as the
    shorter of data and fill. *)
Lemma table_rows_length (data : list (list pyval)) (fill rows : list pyval) :
  table_rows data fill = Ok rows ->
  length rows = Nat.min (length data) (length fill).
Proof.
  unfold table_rows. intros H. apply comprehension_length in H.
  rewrite H. apply length_zip_with.
Qed.

(** [add_table] and [add_pie_chart] never raise for the length of a fill
    list. *)
Lemma add_table_no_shape_error (name : strarg) (data : list (list pyval))
    (fill : option (list pyval)) (t : Template) (e : exn) :
  outcome (add_table name data fill t) = Raise e -> is_InvalidShape e = false.
Proof.
  rewrite add_table_commit. unfold commit.
  destruct (table_rows data _) eqn:Hr; [discriminate|].
  intros [= <-]. apply InvalidValueType_not_shape.
  now apply table_rows_raises in Hr.
Qed.

(** [add_chart] checks the fill list before it builds anything. *)
Lemma add_chart_fill_checked (name : strarg) (categories : list pyval)
    (data : list (list pyval)) (fill : list pyval) (first_row_blank : bool)
    (t : Template) :
  Forall (fun data_list => length data_list = length categories + 1) data ->
  length fill <> length data ->
  outcome (add_chart name categories data (Some fill) first_row_blank t)
  = Raise (ValueError (msg_fill_size fill (length fill) (length data))).
Proof.
  intros Hrows Hlen. rewrite add_chart_commit. unfold commit, chart_table.
  rewrite chart_checks_result.
  destruct (find _ data) as [row|] eqn:Hf.
  - apply find_some in Hf as [Hin Hb]. rewrite List.Forall_forall in Hrows.
    apply negb_true_iff, Nat.eqb_neq in Hb. now apply Hrows in Hin.
  - apply Nat.eqb_neq in Hlen. rewrite Hlen. reflexivity.
Qed.

(** C3. A fill list of the wrong length is a hard error in [add_chart]
    only.  [add_table] and [add_pie_chart] zip data and fill without the
    check: with two data rows and one colour both return normally and the
    second data row is dropped; with three colours the third is ignored. *)
Theorem fill_length_unchecked_outside_add_chart :
  add_table (a_str "nice table")
    [[PStr "A1"; PStr "A2"]; [PStr "B1"; PStr "B2"]] (Some [PStr "#000000"])
    (Template_init (PStr "example.pptx"))
  = MkRun
      (MkTemplate (PStr "example.pptx")
         [slide_object (a_str "nice table")
            [PList [cell "string" (PStr "A1") (PStr "#000000");
                    cell "string" (PStr "A2") (PStr "#000000")]]])
      [] (Ok tt)
  /\ add_pie_chart (a_str "tasty pie")
       [[PStr "Series1"; PInt 90]; [PStr "Series2"; PInt 10]]
       (Some [PStr "#000000"; PStr "#111111"; PStr "#222222"])
       (Template_init (PStr "example.pptx"))
     = MkRun
         (MkTemplate (PStr "example.pptx")
            [slide_object (a_str "tasty pie")
               [PList [];
                PList [cell "string" (PStr "Series1") (PStr "#000000");
                       cell "number" (PInt 90) (PStr "#000000")];
                PList [cell "string" (PStr "Series2") (PStr "#111111");
                       cell "number" (PInt 10) (PStr "#111111")]]])
         [] (Ok tt)
  /\ outcome
       (add_chart (a_str "Cool Name bro") [PStr "A2"]
          [[PStr "A1"; PStr "A2"]; [PStr "B1"; PStr "B2"]] (Some [PStr "#000000"])
          true (Template_init (PStr "example.pptx")))
     = Raise (ValueError (msg_fill_size [PStr "#000000"] 1 2)).
Proof. split; [|split]; reflexivity. Qed.

(** ** Pie charts *)

Lemma add_pie_chart_RuntimeError_iff (name : strarg) (data : list (list pyval))
    (fill : option (list pyval)) (t : Template) :
  (exists m, outcome (add_pie_chart name data fill t) = Raise (RuntimeError m))
  <-> Exists (fun row => length row <> 2) data.
Proof.
  rewrite add_pie_chart_commit. unfold commit.
  set (bad := fun row : list pyval => negb (length row =? 2)).
  assert (Hbad : forall row, bad row = true <-> length row <> 2).
  { intros row. unfold bad. rewrite negb_true_iff. apply Nat.eqb_neq. }
  split.
  - intros [m Hm]. destruct (pie_table name data fill) eqn:Hp; [discriminate|].
    injection Hm as ->.
    apply pie_table_raises in Hp as [[Hc _] | [_ Hv]]; [|discriminate Hv].
    rewrite pie_check_result in Hc. fold bad in Hc.
    destruct (find bad data) as [row|] eqn:Hf; [|discriminate].
    apply find_some in Hf as [Hin Hb]. apply List.Exists_exists.
    exists row. split; [exact Hin | now apply Hbad].
  - intros Hex.
    assert (Exists (fun row => bad row = true) data) as Hex'.
    { eapply Exists_impl; [exact Hex|]. intros row. apply Hbad. }
    apply find_Exists in Hex' as [row Hrow].
    unfold pie_table. rewrite pie_check_result. fold bad. rewrite Hrow.
    eauto.
Qed.

(** A successful [add_pie_chart] appends one object: the empty row, then
    one row per pair of the zip of data and fill; with no fill list that is
    one row per data pair. *)
Lemma add_pie_chart_rows (name : strarg) (data : list (list pyval))
    (fill : option (list pyval)) (t : Template) :
  outcome (add_pie_chart name data fill t) = Ok tt ->
  exists rows,
    table_rows data (default_fill data fill) = Ok rows
    /\ length rows = Nat.min (length data) (length (default_fill data fill))
    /\ (fill = None -> length rows = length data)
    /\ thinkcell_objects (final (add_pie_chart name data fill t))
       = thinkcell_objects t ++ [slide_object name (PList [] :: rows)].
Proof.
  rewrite add_pie_chart_commit. unfold commit, pie_table.
  destruct (pie_check name data) as [[]|]; [|discriminate].
  cbn [bindR].
  destruct (table_rows data _) as [rows|] eqn:Hr; [|discriminate].
  intros _. exists rows. split; [reflexivity|].
  apply table_rows_length in Hr. split; [exact Hr|]. split; [|reflexivity].
  intros ->. cbn [default_fill] in Hr. rewrite Hr, length_map. lia.
Qed.

(** C8. [add_pie_chart] with two data pairs and a fill list of one colour
    returns normally and appends an object whose table is the empty row and
    a single data row: the second pair has no row. *)
Theorem add_pie_chart_drops_pairs :
  add_pie_chart (a_str "tasty pie")
    [[PStr "Series1"; PInt 90]; [PStr "Series2"; PInt 10]]
    (Some [PStr "#000000"])
    (Template_init (PStr "example.pptx"))
  = MkRun
      (MkTemplate (PStr "example.pptx")
         [slide_object (a_str "tasty pie")
            [PList [];
             PList [cell "string" (PStr "Series1") (PStr "#000000");
                    cell "number" (PInt 90) (PStr "#000000")]]])
      [] (Ok tt).
Proof. reflexivity. Qed.

(** ** Suffixes *)

Lemma length_append (p s : string) :
  String.length (p +:+ s) = String.length p + String.length s.
Proof.
  induction p as [|c p IH]; [reflexivity|].
  change (String c p +:+ s) with (String c (p +:+ s)). cbn. now rewrite IH.
Qed.

Lemma substring_whole (s : string) : String.substring 0 (String.length s) s = s.
Proof. induction s as [|c s IH]; [reflexivity|]. cbn. now rewrite IH. Qed.

Lemma substring_skip (p s : string) (k : nat) :
  String.substring (String.length p) k (p +:+ s) = String.substring 0 k s.
Proof.
  induction p as [|c p IH]; [reflexivity|].
  change (String c p +:+ s) with (String c (p +:+ s)). cbn. exact IH.
Qed.

Lemma substring_split (s : string) (i : nat) :
  i <= String.length s ->
  s = String.substring 0 i s +:+ String.substring i (String.length s - i) s.
Proof.
  revert i. induction s as [|c s IH]; intros i Hi.
  - cbn in Hi. assert (i = 0) as -> by lia. reflexivity.
  - destruct i as [|i].
    + cbn [String.substring]. change ("" +:+ ?x) with x.
      cbn [String.length Nat.sub]. now rewrite substring_whole.
    + cbn [String.substring String.length Nat.sub].
      change (String c ?x +:+ ?y) with (String c (x +:+ y)).
      f_equal. apply IH. cbn in Hi. lia.
Qed.

(** [endswith] holds exactly of the strings that are some text followed by
    the suffix, character for character. *)
Lemma endswith_spec (s suffix : string) :
  endswith s suffix = true <-> exists p, s = p +:+ suffix.
Proof.
  unfold endswith. split.
  - intros H. apply andb_prop in H as [Hle Heq].
    apply Nat.leb_le in Hle. apply String.eqb_eq in Heq.
    exists (String.substring 0 (String.length s - String.length suffix) s).
    pose proof (substring_split s (String.length s - String.length suffix))
      as Hs.
    replace (String.length s - (String.length s - String.length suffix))
      with (String.length suffix) in Hs by lia.
    rewrite Heq in Hs. apply Hs. lia.
  - intros [p ->]. rewrite length_append. apply andb_true_intro. split.
    + apply Nat.leb_le. lia.
    + replace (String.length p + String.length suffix - String.length suffix)
        with (String.length p) by lia.
      rewrite substring_skip, substring_whole. apply String.eqb_refl.
Qed.

(** ** Presentation *)

Lemma verify_template_cases (template_name : pyval) :
  _verify_template template_name
  = match template_name with
    | PStr s =>
        if endswith s ".pptx" then Ok template_name
        else Raise (TypeError (msg_not_powerpoint template_name))
    | _ => Raise (TypeError (msg_not_template template_name))
    end.
Proof.
  destruct template_name as [| | | |s| | | |]; try reflexivity.
  unfold _verify_template. cbn [isinstance issubclass type_of mro existsb
    pyclass_eqb orb negb str_endswith bindR].
  destruct (endswith s ".pptx"); reflexivity.
Qed.

Lemma verify_template_ok (template_name : pyval) :
  (exists p, template_name = PStr (p +:+ ".pptx")) ->
  _verify_template template_name = Ok template_name.
Proof.
  intros [p ->]. rewrite verify_template_cases.
  assert (endswith (p +:+ ".pptx") ".pptx" = true) as ->; [|reflexivity].
  apply endswith_spec. eauto.
Qed.

Lemma verify_template_raises (template_name : pyval) :
  (forall p, template_name <> PStr (p +:+ ".pptx")) ->
  exists m, _verify_template template_name = Raise (TypeError m).
Proof.
  intros Hno. rewrite verify_template_cases.
  destruct template_name as [| | | |s| | | |]; eauto.
  destruct (endswith s ".pptx") eqn:He; eauto.
  apply endswith_spec in He as [p ->]. now destruct (Hno p).
Qed.

Lemma add_template_run (template : loc) (s : Program) (t : Template) :
  store s !! template = Some t ->
  add_template template s
  = match _verify_template (path t) with
    | Ok _ =>
        MkRun (MkProgram (MkPresentation (slides (self s) ++ [template]))
                 (store s) (disk s)) [] (Ok tt)
    | Raise e => MkRun s [] (Raise e)
    end.
Proof.
  intros Hs. unfold add_template, template_path, bind, liftR, slides_append,
    modify. rewrite Hs. cbn [outcome final warned].
  destruct (_verify_template (path t)); reflexivity.
Qed.

(** C7. [add_template] on a [Template] whose path is not a [str], or is a
    [str] that does not end in the exact suffix [.pptx], raises a
    [TypeError] and leaves the slide list, and all else, as it was; on a
    path that is a [str] ending in [.pptx] it appends the reference to the
    slide list, and [_verify_template] returns the path it was given. *)
Theorem add_template_checks_path (s : Program) (template : loc) (t : Template) :
  store s !! template = Some t ->
  ((forall p, path t <> PStr (p +:+ ".pptx")) ->
   (exists m, outcome (add_template template s) = Raise (TypeError m))
   /\ final (add_template template s) = s
   /\ slides (self (final (add_template template s))) = slides (self s))
  /\ ((exists p, path t = PStr (p +:+ ".pptx")) ->
      outcome (add_template template s) = Ok tt
      /\ slides (self (final (add_template template s)))
         = slides (self s) ++ [template]
      /\ store (final (add_template template s)) = store s
      /\ disk (final (add_template template s)) = disk s
      /\ _verify_template (path t) = Ok (path t))
  /\ (isinstance (path t) cls_str = false ->
      forall p, path t <> PStr (p +:+ ".pptx")).
Proof.
  intros Hs. rewrite (add_template_run _ _ _ Hs). split; [|split].
  - intros Hno. destruct (verify_template_raises _ Hno) as [m ->].
    cbn [outcome final]. eauto.
  - intros Hyes. rewrite (verify_template_ok _ Hyes). cbn [outcome final].
    repeat split; reflexivity.
  - intros Hstr p Hp. rewrite Hp in Hstr. discriminate Hstr.
Qed.

Lemma add_template_checks_path_witness :
  (outcome (add_template 1%positive
              (MkProgram (MkPresentation [])
                 {[ 1%positive := Template_init (PStr "example.pptx") ]} ∅))
   = Ok tt
   /\ slides (self (final (add_template 1%positive
              (MkProgram (MkPresentation [])
                 {[ 1%positive := Template_init (PStr "example.pptx") ]} ∅))))
      = [1%positive])
  /\ (exists m,
        outcome (add_template 1%positive
                   (MkProgram (MkPresentation [])
                      {[ 1%positive := Template_init (PInt 5) ]} ∅))
        = Raise (TypeError m)).
Proof.
  split.
  - destruct (add_template_checks_path
                (MkProgram (MkPresentation [])
                   {[ 1%positive := Template_init (PStr "example.pptx") ]} ∅)
                1%positive (Template_init (PStr "example.pptx")))
      as (_ & Hyes & _); [reflexivity|].
    destruct Hyes as (Hout & Hslides & _); [exists "example"; reflexivity|].
    split; [exact Hout | exact Hslides].
  - destruct (add_template_checks_path
                (MkProgram (MkPresentation [])
                   {[ 1%positive := Template_init (PInt 5) ]} ∅)
                1%positive (Template_init (PInt 5)))
      as (Hno & _ & _); [reflexivity|].
    destruct Hno as (Hout & _); [discriminate|]. exact Hout.
Defined.







(** ** References, not copies *)

(** A successful [add_*] call appends one object. *)
Lemma perform_appends (c : add_call) (t : Template) :
  outcome (perform c t) = Ok tt ->
  exists rows,
    call_table c = Ok rows
    /\ final (perform c t)
       = MkTemplate (path t)
           (thinkcell_objects t ++ [slide_object (call_name c) rows]).
Proof.
  rewrite perform_commit. unfold commit.
  destruct (call_table c) as [rows|]; [|discriminate]. eauto.
Qed.





(** * Further properties of the module *)

(** ** Cells of supported values *)

Lemma transform_input_supported (v color : pyval) :
  supported v = true -> transform_input v color = Ok (to_cell v color).
Proof.
  destruct v; try discriminate; intros _; cbn [to_cell].
  - apply transform_input_bool.
  - apply transform_input_int.
  - apply transform_input_float.
  - apply transform_input_str.
  - apply transform_input_datetime.
Qed.

Lemma transform_input_unsupported (v color : pyval) :
  supported v = false ->
  transform_input v color = Raise (ValueError (msg_not_acceptable v)).
Proof. apply transform_input_other. Qed.

Lemma row_cells_supported (data_list : list pyval) (color : pyval) :
  forallb supported data_list = true ->
  row_cells data_list color = Ok (map (fun el => to_cell el color) data_list).
Proof.
  unfold row_cells. induction data_list as [|v l IH]; [reflexivity|].
  cbn [forallb]. intros H. apply andb_prop in H as [Hv Hl].
  cbn [comprehension map]. rewrite (transform_input_supported _ _ Hv), (IH Hl).
  reflexivity.
Qed.

(** A row with a value no cell can hold raises for the first such value. *)
Lemma row_cells_unsupported (data_list : list pyval) (color : pyval) :
  forallb supported data_list = false ->
  exists v,
    find (fun el => negb (supported el)) data_list = Some v
    /\ row_cells data_list color = Raise (ValueError (msg_not_acceptable v)).
Proof.
  unfold row_cells. induction data_list as [|v l IH]; [discriminate|].
  cbn [forallb find comprehension]. destruct (supported v) eqn:Hv.
  - cbn [andb negb]. intros Hl. destruct (IH Hl) as (w & Hfind & Hrow).
    exists w. split; [exact Hfind|].
    rewrite (transform_input_supported _ _ Hv), Hrow. reflexivity.
  - intros _. exists v. split; [reflexivity|].
    rewrite (transform_input_unsupported _ _ Hv). reflexivity.
Qed.

Lemma table_rows_cons (data_list : list pyval) (data : list (list pyval))
    (color : pyval) (fill : list pyval) :
  table_rows (data_list :: data) (color :: fill)
  = let* row := row_cells data_list color in
    let* rows := table_rows data fill in
    Ok (PList row :: rows).
Proof.
  unfold table_rows. cbn [zip_with comprehension].
  destruct (row_cells data_list color); reflexivity.
Qed.

Lemma table_rows_no_fill (data : list (list pyval)) : table_rows data [] = Ok [].
Proof. now destruct data. Qed.

Lemma table_rows_supported (data : list (list pyval)) (fill : list pyval) :
  forallb (fun '(data_list, _) => forallb supported data_list) (zip data fill) = true ->
  table_rows data fill = Ok (zip_with to_row data fill).
Proof.
  revert fill.
  induction data as [|row data IH]; intros [|c fill]; try reflexivity.
  cbn [zip_with forallb]. intros H. apply andb_prop in H as [Hrow Hrest].
  rewrite table_rows_cons, (row_cells_supported _ _ Hrow), (IH _ Hrest).
  reflexivity.
Qed.

Lemma table_rows_unsupported (data : list (list pyval)) (fill : list pyval) :
  forallb (fun '(data_list, _) => forallb supported data_list) (zip data fill) = false ->
  exists v, supported v = false
            /\ table_rows data fill = Raise (ValueError (msg_not_acceptable v)).
Proof.
  revert fill.
  induction data as [|row data IH]; intros [|c fill]; try discriminate.
  cbn [zip_with forallb]. rewrite table_rows_cons.
  destruct (forallb supported row) eqn:Hrow.
  - cbn [andb]. intros Hrest. destruct (IH _ Hrest) as (v & Hv & Hr).
    exists v. split; [exact Hv|].
    rewrite (row_cells_supported _ _ Hrow), Hr. reflexivity.
  - intros _. destruct (row_cells_unsupported _ c Hrow) as (v & Hfind & Hr).
    exists v. split.
    + apply find_some in Hfind as [_ Hb]. now apply negb_true_iff in Hb.
    + rewrite Hr. reflexivity.
Qed.

(** The cell of a day before the year 1000, as the code makes it. *)
Example to_cell_year_5 :
  to_cell (PDatetime 5 1 1 0 0 0 0) PNone = PDict [("date", PStr "5-01-01")]
  /\ transform_input (PDatetime 5 1 1 0 0 0 0) PNone
     = Ok (to_cell (PDatetime 5 1 1 0 0 0 0) PNone).
Proof. split; vm_compute; reflexivity. Qed.

(** ** Text fields *)

(** [add_textfield] on a value a cell can hold returns, appends the object
    of one row and one cell, named by [str(name)], and warns exactly when
    the name is not a [str]; on any other value it raises the [ValueError]
    that names the value, after the same warning, and appends nothing. *)
Theorem add_textfield_result (name : strarg) (text : pyval) (t : Template) :
  add_textfield name text t
  = MkRun
      (if supported text then
         MkTemplate (path t)
           (thinkcell_objects t
            ++ [PDict [("name", PStr (py_str name));
                       ("table", PList [PList [to_cell text PNone]])]])
       else t)
      (if is_str name then [] else [field_name_not_str])
      (if supported text then Ok tt
       else Raise (ValueError (msg_not_acceptable text))).
Proof.
  rewrite add_textfield_commit. unfold commit, textfield_table.
  destruct (supported text) eqn:Hs.
  - rewrite (transform_input_supported _ _ Hs). reflexivity.
  - rewrite (transform_input_unsupported _ _ Hs). reflexivity.
Qed.

(** ** Tables *)

(** [add_table] puts no condition on the shape of the data: rows of any
    lengths, with a colour for each row, give one table row per data row,
    every cell of a row in the colour of that row. *)
Theorem add_table_rows_in_row_colour (name : strarg) (data : list (list pyval))
    (fill : list pyval) (t : Template) :
  Forall (fun data_list => forallb supported data_list = true) data ->
  length fill = length data ->
  outcome (add_table name data (Some fill) t) = Ok tt
  /\ warned (add_table name data (Some fill) t) = []
  /\ final (add_table name data (Some fill) t)
     = MkTemplate (path t)
         (thinkcell_objects t
          ++ [PDict [("name", PStr (py_str name));
                     ("table", PList (zip_with to_row data fill))]])
  /\ length (zip_with to_row data fill) = length data.
Proof.
  intros Hdata Hlen. rewrite add_table_commit. unfold commit.
  cbn [default_fill]. rewrite table_rows_supported.
  - repeat split; try reflexivity. rewrite length_zip_with. lia.
  - clear Hlen. revert fill.
    induction Hdata as [|row data Hrow _ IH]; intros [|c fill]; try reflexivity.
    cbn [zip_with forallb]. rewrite Hrow. apply IH.
Qed.

Lemma add_table_rows_in_row_colour_witness :
  final (add_table (a_str "nice table")
           [[PStr "A1"; PStr "A2"; PInt 3]; [PStr "B1"]]
           (Some [PStr "#000000"; PStr "#111111"])
           (Template_init (PStr "example.pptx")))
  = MkTemplate (PStr "example.pptx")
      [PDict [("name", PStr "nice table");
              ("table",
               PList [PList [cell "string" (PStr "A1") (PStr "#000000");
                             cell "string" (PStr "A2") (PStr "#000000");
                             cell "number" (PInt 3) (PStr "#000000")];
                      PList [cell "string" (PStr "B1") (PStr "#111111")]])]].
Proof.
  apply (add_table_rows_in_row_colour (a_str "nice table")
           [[PStr "A1"; PStr "A2"; PInt 3]; [PStr "B1"]]
           [PStr "#000000"; PStr "#111111"]
           (Template_init (PStr "example.pptx"))).
  - repeat constructor.
  - reflexivity.
Defined.

Lemma forallb_zip_supported (data : list (list pyval)) (fill : list pyval) :
  forallb (fun '(data_list, _) => forallb supported data_list) (zip data fill) = true
  <-> Forall (fun row : list pyval * pyval =>
                Forall (fun v => supported v = true) row.1)
        (zip data fill).
Proof.
  rewrite List.forallb_forall, List.Forall_forall. split.
  - intros H [row c] Hin. apply List.Forall_forall. intros v Hv.
    specialize (H _ Hin). cbn in H. rewrite List.forallb_forall in H. now apply H.
  - intros H [row c] Hin. apply List.forallb_forall. intros v Hv.
    specialize (H _ Hin). cbn in H. rewrite List.Forall_forall in H. now apply H.
Qed.

(** [add_table] returns exactly when every value of the rows it zips with a
    colour is one a cell can hold.  It has no other way to fail: whatever it
    raises is the [ValueError] for such a value, never an error about the
    shape of the data, and then nothing is appended. *)
Theorem add_table_returns_iff (name : strarg) (data : list (list pyval))
    (fill : option (list pyval)) (t : Template) :
  (outcome (add_table name data fill t) = Ok tt
   <-> Forall (fun row : list pyval * pyval =>
                 Forall (fun v => supported v = true) row.1)
         (zip data (default_fill data fill)))
  /\ (forall e,
        outcome (add_table name data fill t) = Raise e ->
        (exists v, supported v = false /\ e = ValueError (msg_not_acceptable v))
        /\ final (add_table name data fill t) = t).
Proof.
  rewrite add_table_commit. unfold commit.
  rewrite <- forallb_zip_supported.
  destruct (forallb _ (zip data (default_fill data fill))) eqn:Hall.
  - rewrite (table_rows_supported _ _ Hall). cbn [outcome]. split; [easy|].
    intros e [=].
  - destruct (table_rows_unsupported _ _ Hall) as (v & Hv & ->).
    cbn [outcome final]. split; [split; discriminate|].
    intros e [= <-]. eauto.
Qed.

(** ** Charts *)

Lemma chart_table_ok (categories : list pyval) (data : list (list pyval))
    (fill : option (list pyval)) (first_row_blank : bool) :
  Forall (fun data_list => length data_list = length categories + 1) data ->
  (forall f, fill = Some f -> length f = length data) ->
  forallb supported categories = true ->
  Forall (fun data_list => forallb supported data_list = true) data ->
  chart_table categories data fill first_row_blank
  = Ok (PList (PNone :: map (fun el => to_cell el PNone) categories)
        :: (if first_row_blank then [PList []] else [])
        ++ zip_with to_row data (default_fill data fill)).
Proof.
  intros Hrows Hfill Hcats Hdata. unfold chart_table.
  assert (chart_checks categories data fill = Ok tt) as ->.
  { destruct (chart_checks categories data fill) as [[]|e] eqn:Hc; [reflexivity|].
    exfalso. assert (exists e, chart_checks categories data fill = Raise e) as Hex
      by eauto.
    apply chart_checks_raise_iff in Hex as [Hex | (f & -> & Hne)].
    - apply List.Exists_exists in Hex as (row & Hin & Hbad).
      rewrite List.Forall_forall in Hrows. now apply Hrows in Hin.
    - now apply Hne, Hfill. }
  cbn [bindR]. rewrite (row_cells_supported _ _ Hcats). cbn [bindR].
  rewrite table_rows_supported; [reflexivity|].
  clear Hfill Hrows. generalize (default_fill data fill) as f.
  induction Hdata as [|row data Hrow _ IH]; intros [|c f]; try reflexivity.
  cbn [zip_with forallb]. rewrite Hrow. apply IH.
Qed.

(** A chart whose rows are one longer than the categories, with no fill
    list or one colour per row, and with values cells can hold: the object
    appended has the header of [None] and the category cells, the empty
    row when [first_row_blank] is set, then a row per data row in the
    colour of that row. *)
Theorem add_chart_table_built (name : strarg) (categories : list pyval)
    (data : list (list pyval)) (fill : option (list pyval))
    (first_row_blank : bool) (t : Template) :
  Forall (fun data_list => length data_list = length categories + 1) data ->
  (forall f, fill = Some f -> length f = length data) ->
  forallb supported categories = true ->
  Forall (fun data_list => forallb supported data_list = true) data ->
  outcome (add_chart name categories data fill first_row_blank t) = Ok tt
  /\ final (add_chart name categories data fill first_row_blank t)
     = MkTemplate (path t)
         (thinkcell_objects t
          ++ [PDict
                [("name", PStr (py_str name));
                 ("table",
                  PList
                    (PList (PNone :: map (fun el => to_cell el PNone) categories)
                     :: (if first_row_blank then [PList []] else [])
                     ++ zip_with to_row data (default_fill data fill)))]])
  /\ length (zip_with to_row data (default_fill data fill)) = length data.
Proof.
  intros Hrows Hfill Hcats Hdata.
  rewrite add_chart_commit. unfold commit.
  rewrite (chart_table_ok _ _ _ _ Hrows Hfill Hcats Hdata).
  repeat split; try reflexivity. rewrite length_zip_with.
  destruct fill as [f|]; cbn [default_fill];
    [rewrite (Hfill f eq_refl) | rewrite length_map]; lia.
Qed.

Lemma add_chart_table_built_witness :
  final (add_chart (a_obj "234") [PStr "Employees"; PInt 2020]
           [[PStr "Apple"; PInt 200; PFloat (S754_finite false 3 (-1))]]
           (Some [PStr "#70AD47"]) false (Template_init (PStr "example.pptx")))
  = MkTemplate (PStr "example.pptx")
      [PDict
         [("name", PStr "234");
          ("table",
           PList
             [PList [PNone; cell "string" (PStr "Employees") PNone;
                     cell "number" (PInt 2020) PNone];
              PList [cell "string" (PStr "Apple") (PStr "#70AD47");
                     cell "number" (PInt 200) (PStr "#70AD47");
                     cell "number" (PFloat (S754_finite false 3 (-1))) (PStr "#70AD47")]])]].
Proof.
  apply (add_chart_table_built (a_obj "234") [PStr "Employees"; PInt 2020]
           [[PStr "Apple"; PInt 200; PFloat (S754_finite false 3 (-1))]]
           (Some [PStr "#70AD47"]) false (Template_init (PStr "example.pptx"))).
  - repeat constructor.
  - intros f [= <-]. reflexivity.
  - reflexivity.
  - repeat constructor.
Defined.

(** The order of the checks of [add_chart]: the first data row of a wrong
    length is reported whatever the fill list and the values are; with all
    rows of the right length, a fill list of a wrong length is reported
    whatever the values are.  A value no cell can hold is only reported for
    data of the right shape. *)
Theorem add_chart_check_order (name : strarg) (categories : list pyval)
    (data : list (list pyval)) (fill : option (list pyval))
    (first_row_blank : bool) (t : Template) :
  (forall before row after,
      data = before ++ row :: after ->
      Forall (fun data_list => length data_list = length categories + 1) before ->
      length row <> length categories + 1 ->
      outcome (add_chart name categories data fill first_row_blank t)
      = Raise (ValueError (msg_row_size row (length row) (length categories + 1))))
  /\ (forall f,
        fill = Some f ->
        Forall (fun data_list => length data_list = length categories + 1) data ->
        length f <> length data ->
        outcome (add_chart name categories data fill first_row_blank t)
        = Raise (ValueError (msg_fill_size f (length f) (length data))))
  /\ (forall v,
        outcome (add_chart name categories data fill first_row_blank t)
        = Raise (ValueError (msg_not_acceptable v)) ->
        Forall (fun data_list => length data_list = length categories + 1) data
        /\ forall f, fill = Some f -> length f = length data).
Proof.
  split; [|split].
  - intros before row after -> Hbefore Hrow.
    rewrite add_chart_commit. unfold commit, chart_table.
    rewrite chart_checks_result.
    assert (find (fun r : list pyval => negb (length r =? length categories + 1))
              (before ++ row :: after) = Some row) as ->; [|reflexivity].
    induction Hbefore as [|r before Hr _ IH]; cbn [app find].
    + apply Nat.eqb_neq in Hrow. now rewrite Hrow.
    + apply Nat.eqb_eq in Hr. now rewrite Hr.
  - intros f -> Hrows Hlen. now apply add_chart_fill_checked.
  - intros v Hv. rewrite add_chart_commit in Hv. unfold commit in Hv.
    destruct (chart_table categories data fill first_row_blank) eqn:Ht;
      [discriminate|].
    injection Hv as ->.
    apply chart_table_raises in Ht as [[_ Hs] | [Hc _]]; [discriminate Hs|].
    assert (~ exists e, chart_checks categories data fill = Raise e) as Hno.
    { intros [e He]. congruence. }
    rewrite chart_checks_raise_iff in Hno. split.
    + apply List.Forall_forall. intros row Hin.
      destruct (Nat.eq_dec (length row) (length categories + 1)); [assumption|].
      exfalso. apply Hno. left. apply List.Exists_exists. eauto.
    + intros f ->. destruct (Nat.eq_dec (length f) (length data)); [assumption|].
      exfalso. apply Hno. right. eauto.
Qed.

Lemma add_chart_check_order_witness :
  outcome (add_chart (a_str "Cool Name bro") [PStr "Alpha"; PStr "bravo"]
             [[PInt 3; PInt 4; PList []]; [PInt 2; PStr "adokf"]]
             (Some []) true (Template_init (PStr "example.pptx")))
  = Raise (ValueError (msg_row_size [PInt 2; PStr "adokf"] 2 3)).
Proof.
  apply (add_chart_check_order (a_str "Cool Name bro") [PStr "Alpha"; PStr "bravo"]
           [[PInt 3; PInt 4; PList []]; [PInt 2; PStr "adokf"]]
           (Some []) true (Template_init (PStr "example.pptx")))
    with (before := [[PInt 3; PInt 4; PList []]]) (after := []).
  - reflexivity.
  - repeat constructor.
  - cbn. lia.
Defined.

(** ** Fill lists that hold [None] *)

(** A fill list of one [None] per data row is the same as no fill list, in
    all three methods that take one: the same outcome, the same warnings,
    the same object, with no ["fill"] entry in any cell. *)
Theorem fill_of_None_is_no_fill (name : strarg) (categories : list pyval)
    (data : list (list pyval)) (first_row_blank : bool) (t : Template) :
  add_table name data (Some (map (fun _ => PNone) data)) t
  = add_table name data None t
  /\ add_chart name categories data (Some (map (fun _ => PNone) data))
       first_row_blank t
     = add_chart name categories data None first_row_blank t
  /\ add_pie_chart name data (Some (map (fun _ => PNone) data)) t
     = add_pie_chart name data None t.
Proof.
  split; [|split].
  - rewrite !add_table_commit. reflexivity.
  - rewrite !add_chart_commit. f_equal. unfold chart_table. f_equal.
    rewrite !chart_checks_result. destruct (find _ data); [reflexivity|].
    rewrite length_map, Nat.eqb_refl. reflexivity.
  - rewrite !add_pie_chart_commit. reflexivity.
Qed.

(** ** Empty data *)

(** No [add_*] method refuses empty data.  [add_table] appends an object
    with an empty table, whatever the fill list; [add_pie_chart] one with
    the single empty row; [add_chart] one with the header alone, and the
    empty row when asked for, provided the fill list is absent or empty:
    a fill list that is not empty is a shape error here too. *)
Theorem add_methods_on_empty_data (name : strarg) (categories : list pyval)
    (fill : list pyval) (first_row_blank : bool) (t : Template) :
  (forall fill',
      add_table name [] fill' t
      = MkRun (MkTemplate (path t)
                 (thinkcell_objects t ++ [slide_object name []]))
              [] (Ok tt))
  /\ (forall fill',
        add_pie_chart name [] fill' t
        = MkRun (MkTemplate (path t)
                   (thinkcell_objects t ++ [slide_object name [PList []]]))
                [] (Ok tt))
  /\ (forallb supported categories = true ->
      forall fill', fill' = None \/ fill' = Some [] ->
      outcome (add_chart name categories [] fill' first_row_blank t) = Ok tt
      /\ final (add_chart name categories [] fill' first_row_blank t)
         = MkTemplate (path t)
             (thinkcell_objects t
              ++ [slide_object name
                    (PList (PNone :: map (fun el => to_cell el PNone) categories)
                     :: (if first_row_blank then [PList []] else []))]))
  /\ (fill <> [] ->
      outcome (add_chart name categories [] (Some fill) first_row_blank t)
      = Raise (ValueError (msg_fill_size fill (length fill) 0))).
Proof.
  split; [|split; [|split]].
  - intros fill'. rewrite add_table_commit. reflexivity.
  - intros fill'. rewrite add_pie_chart_commit. reflexivity.
  - intros Hcats fill' Hfill. rewrite add_chart_commit.
    unfold commit, chart_table.
    assert (chart_checks categories [] fill' = Ok tt) as ->
      by (destruct Hfill as [-> | ->]; reflexivity).
    cbn [bindR]. rewrite (row_cells_supported _ _ Hcats). cbn [bindR].
    assert (table_rows [] (default_fill [] fill') = Ok []) as -> by reflexivity.
    cbn [bindR outcome final]. rewrite app_nil_r. split; reflexivity.
  - intros Hne. apply add_chart_fill_checked; [constructor|].
    destruct fill; [congruence | discriminate].
Qed.

Lemma add_methods_on_empty_data_witness :
  outcome (add_chart (a_str "Chart name") [PStr "alpha"; PStr "bravo"] []
             None true (Template_init (PStr "example.pptx"))) = Ok tt
  /\ outcome (add_chart (a_str "Chart name") [PStr "alpha"; PStr "bravo"] []
                (Some [PStr "#70AD47"]) true (Template_init (PStr "example.pptx")))
     = Raise (ValueError (msg_fill_size [PStr "#70AD47"] 1 0)).
Proof.
  destruct (add_methods_on_empty_data (a_str "Chart name")
              [PStr "alpha"; PStr "bravo"] [PStr "#70AD47"] true
              (Template_init (PStr "example.pptx")))
    as (_ & _ & Hok & Hbad).
  split.
  - apply (Hok eq_refl None). now left.
  - apply Hbad. discriminate.
Defined.

(** ** Names and warnings *)

(** Only [add_textfield] and [add_chart] look at the class of the name:
    they warn exactly when it is not a [str], before anything can raise, so
    the warning is given whether the call returns or not.  [add_table] and
    [add_pie_chart] never warn.  All four store [str(name)] as the name. *)
Theorem names_and_warnings (name : strarg) (text : pyval)
    (categories : list pyval) (data : list (list pyval))
    (fill : option (list pyval)) (first_row_blank : bool) (t : Template) :
  warned (add_textfield name text t)
  = (if is_str name then [] else [field_name_not_str])
  /\ warned (add_chart name categories data fill first_row_blank t)
     = (if is_str name then [] else [chart_name_not_str])
  /\ warned (add_table name data fill t) = []
  /\ warned (add_pie_chart name data fill t) = []
  /\ (forall c,
        call_name c = name ->
        outcome (perform c t) = Ok tt ->
        exists table,
          thinkcell_objects (final (perform c t))
          = thinkcell_objects t
            ++ [PDict [("name", PStr (py_str name)); ("table", PList table)]]).
Proof.
  rewrite add_textfield_commit, add_chart_commit, add_table_commit,
    add_pie_chart_commit.
  unfold commit.
  split; [destruct (textfield_table text); reflexivity|].
  split; [destruct (chart_table _ _ _ _); reflexivity|].
  split; [destruct (table_rows _ _); reflexivity|].
  split; [destruct (pie_table _ _ _); reflexivity|].
  intros c <- Hok. destruct (perform_appends c t Hok) as (rows & _ & ->).
  exists rows. reflexivity.
Qed.

(** ** Calls in sequence *)

(** Whatever calls are made on a [Template], in whatever number, the path
    stays what it was and the objects there were stay where they were:
    objects are only ever added at the end, one per call that returned, so
    as many as there are calls when the sequence returns, and fewer when a
    call raised. *)
Theorem add_calls_only_append (calls : list add_call) (t : Template) :
  path (final (perform_all calls t)) = path t
  /\ exists added,
       thinkcell_objects (final (perform_all calls t))
       = thinkcell_objects t ++ added
       /\ length added <= length calls
       /\ (outcome (perform_all calls t) = Ok tt -> length added = length calls)
       /\ (forall e, outcome (perform_all calls t) = Raise e ->
                     length added < length calls).
Proof.
  revert t. induction calls as [|c calls IH]; intros t.
  - split; [reflexivity|]. exists []. cbn. rewrite app_nil_r.
    repeat split; try lia. intros e [=].
  - cbn [perform_all]. unfold bind. rewrite perform_commit. unfold commit.
    destruct (call_table c) as [rows|e'].
    + cbn [outcome final warned].
      set (t1 := MkTemplate (path t)
                   (thinkcell_objects t ++ [slide_object (call_name c) rows])).
      destruct (IH t1) as (Hpath & added & Hobj & Hle & Hok & Hraise).
      destruct (outcome (perform_all calls t1)) as [[]|e] eqn:Hout;
        cbn [outcome final warned].
      * split; [exact Hpath|].
        exists (slide_object (call_name c) rows :: added).
        rewrite Hobj. cbn [t1 thinkcell_objects]. rewrite <- app_assoc.
        cbn [app length]. repeat split; try lia.
        -- intros _. rewrite Hok; reflexivity.
        -- intros e [=].
      * split; [exact Hpath|].
        exists (slide_object (call_name c) rows :: added).
        rewrite Hobj. cbn [t1 thinkcell_objects]. rewrite <- app_assoc.
        cbn [app length]. repeat split; try lia.
        -- intros [=].
        -- intros e0 _. specialize (Hraise e eq_refl). lia.
    + cbn [outcome final warned]. split; [reflexivity|].
      exists []. rewrite app_nil_r. cbn [length].
      repeat split; try lia. intros [=].
Qed.

(** ** What a save touches *)



(** ** What a call on one [Template] touches *)

Lemma invoke_frame (template : loc) (c : add_call) (s : Program) :
  self (final (invoke template (perform c) s)) = self s
  /\ disk (final (invoke template (perform c) s)) = disk s
  /\ (forall other, other <> template ->
        store (final (invoke template (perform c) s)) !! other = store s !! other)
  /\ (forall t, store s !! template = Some t ->
        store (final (invoke template (perform c) s)) !! template
        = Some (final (perform c t))
        /\ path (final (perform c t)) = path t).
Proof.
  unfold invoke. destruct (store s !! template) as [t|] eqn:Hs;
    cbn [final self disk store].
  - split; [reflexivity|]. split; [reflexivity|].
    split; [intros other Hne; now rewrite lookup_insert_ne|].
    intros t' [= <-]. split; [apply lookup_insert_eq|].
    rewrite perform_commit. unfold commit.
    destruct (call_table c); reflexivity.
  - split; [reflexivity|]. split; [reflexivity|]. split; [reflexivity|].
    intros t' [=].
Qed.

(** An [add_*] call through a reference changes the instance referred to
    and nothing else: every other [Template], the slide list and the files
    are as before, no reference starts or stops referring to a [Template],
    and the path of the instance is as before. *)
Theorem invoke_touches_one_template (template : loc) (c : add_call) (s : Program) :
  self (final (invoke template (perform c) s)) = self s
  /\ disk (final (invoke template (perform c) s)) = disk s
  /\ (forall other, other <> template ->
        store (final (invoke template (perform c) s)) !! other = store s !! other)
  /\ (forall i, is_Some (store (final (invoke template (perform c) s)) !! i)
                <-> is_Some (store s !! i))
  /\ (forall t, store s !! template = Some t ->
        exists t',
          store (final (invoke template (perform c) s)) !! template = Some t'
          /\ path t' = path t
          /\ exists added, thinkcell_objects t' = thinkcell_objects t ++ added
                           /\ length added <= 1).
Proof.
  destruct (invoke_frame template c s) as (Hself & Hdisk & Hother & Hsame).
  split; [exact Hself|]. split; [exact Hdisk|]. split; [exact Hother|]. split.
  - intros i. destruct (decide (i = template)) as [->|Hne].
    + destruct (store s !! template) as [t|] eqn:Hs.
      * destruct (Hsame t eq_refl) as [-> _]. split; eauto.
      * unfold invoke. rewrite Hs. cbn [final]. now rewrite Hs.
    + now rewrite Hother.
  - intros t Ht. destruct (Hsame t Ht) as [Hnew Hpath].
    exists (final (perform c t)). split; [exact Hnew|]. split; [exact Hpath|].
    rewrite perform_commit. unfold commit.
    destruct (call_table c) as [rows|e]; cbn [final thinkcell_objects].
    + exists [slide_object (call_name c) rows]. split; [reflexivity | cbn; lia].
    + exists []. split; [now rewrite app_nil_r | cbn; lia].
Qed.

(** ** The slide list of a program *)







(** [add_template] keeps the order of the calls and does not look for
    duplicates: adding a list of references to templates with good paths
    puts that list, as it is, at the end of the slide list. *)
Theorem add_templates_in_order (templates : list loc) (s : Program) :
  Forall (fun i => exists t p, store s !! i = Some t
                               /\ path t = PStr (p +:+ ".pptx")) templates ->
  add_templates templates s
  = MkRun (MkProgram (MkPresentation (slides (self s) ++ templates))
             (store s) (disk s))
          [] (Ok tt).
Proof.
  intros Hall. revert s Hall.
  induction templates as [|i rest IH]; intros s Hall.
  - cbn [add_templates]. unfold ret. rewrite app_nil_r. now destruct s as [[]].
  - inversion Hall as [|? ? (t & p & Hi & Hp) Hrest]; subst.
    cbn [add_templates]. unfold bind.
    rewrite (add_template_run i s t Hi), (verify_template_ok (path t))
      by eauto.
    cbn [outcome final warned]. rewrite IH by exact Hrest.
    cbn [outcome final warned self slides store disk app].
    now rewrite <- app_assoc.
Qed.

Lemma add_templates_in_order_witness :
  slides
    (self
       (final
          (add_templates [1%positive; 1%positive]
             (MkProgram (MkPresentation [])
                {[ 1%positive := Template_init (PStr "example.pptx") ]} ∅))))
  = [1%positive; 1%positive].
Proof.
  rewrite (add_templates_in_order [1%positive; 1%positive]
             (MkProgram (MkPresentation [])
                {[ 1%positive := Template_init (PStr "example.pptx") ]} ∅)).
  - reflexivity.
  - repeat constructor;
      exists (Template_init (PStr "example.pptx")), "example"; split; reflexivity.
Defined.

(** ** Charts from dataframes *)

(** What [add_chart_from_dataframe] refuses, and with which exception:
    any call when pandas is missing, with [ImportError]; an argument that
    is no [DataFrame], with the [DataFrameError] of an invalid frame; and a
    [DataFrame] with at most one column or with no row, these and no other,
    with the [DataFrameError] of a frame without data.  The fill list plays
    no part in this. *)
Theorem add_chart_from_dataframe_refusals (name : strarg)
    (fill : option (list pyval)) (first_row_blank : bool) :
  (forall dataframe,
      add_chart_from_dataframe false name dataframe fill first_row_blank
      = ImportError msg_no_pandas)
  /\ add_chart_from_dataframe true name not_DataFrame fill first_row_blank
     = DataFrameError msg_not_valid_frame
  /\ (forall columns values,
        add_chart_from_dataframe true name (DataFrame columns values) fill
          first_row_blank
        = DataFrameError msg_no_data
        <-> length columns <= 1 \/ values = [])
  /\ (forall columns values,
        2 <= length columns -> values <> [] ->
        add_chart_from_dataframe true name (DataFrame columns values) fill
          first_row_blank
        = Goes_on (add_chart name (tail columns) values fill first_row_blank)).
Proof.
  split; [reflexivity|]. split; [reflexivity|]. split.
  - intros columns values. unfold add_chart_from_dataframe. cbn [negb].
    destruct columns as [|first [|second rest]]; cbn [tail length Nat.leb negb].
    + split; [intros _; left; lia | reflexivity].
    + split; [intros _; left; lia | reflexivity].
    + destruct values as [|row values]; cbn [length Nat.eqb].
      * split; [now right | reflexivity].
      * split; [discriminate | intros [H | H]; [lia | discriminate]].
  - intros columns values Hcols Hvalues. unfold add_chart_from_dataframe.
    destruct columns as [|first [|second rest]]; cbn in Hcols; try lia.
    destruct values as [|row values]; [congruence | reflexivity].
Qed.

Lemma add_chart_from_dataframe_refusals_witness :
  add_chart_from_dataframe true (a_str "Cool Chart")
    (DataFrame [PStr "Company"; PStr "Employees"]
       [[PStr "Apple"; PInt 200]])
    None true
  = Goes_on (add_chart (a_str "Cool Chart") [PStr "Employees"]
               [[PStr "Apple"; PInt 200]] None true).
Proof.
  apply (add_chart_from_dataframe_refusals (a_str "Cool Chart") None true).
  - cbn. lia.
  - discriminate.
Defined.

(** A [DataFrame] with at least two columns and one row, each row holding
    a value per column: the call goes on to [add_chart] with the column
    names but the first as categories, and [add_chart] finds no row of a
    wrong length.  With values cells can hold, and no fill list or a
    colour per row, it returns, and the name of the first column is in no
    cell of the table. *)
Theorem add_chart_from_dataframe_rows_fit (name : strarg) (first : pyval)
    (others : list pyval) (values : list (list pyval))
    (fill : option (list pyval)) (first_row_blank : bool) (t : Template) :
  others <> [] ->
  values <> [] ->
  Forall (fun row => length row = length (first :: others)) values ->
  exists call,
    add_chart_from_dataframe true name (DataFrame (first :: others) values)
      fill first_row_blank
    = Goes_on call
    /\ (forall row n k, outcome (call t) <> Raise (ValueError (msg_row_size row n k)))
    /\ ((forall f, fill = Some f -> length f = length values) ->
        forallb supported others = true ->
        Forall (fun row => forallb supported row = true) values ->
        call t
        = MkRun
            (MkTemplate (path t)
               (thinkcell_objects t
                ++ [slide_object name
                      (PList (PNone :: map (fun el => to_cell el PNone) others)
                       :: (if first_row_blank then [PList []] else [])
                       ++ zip_with to_row values (default_fill values fill))]))
            (if is_str name then [] else [chart_name_not_str])
            (Ok tt)).
Proof.
  intros Hothers Hvalues Hrows.
  exists (add_chart name others values fill first_row_blank).
  assert (Hfit : Forall (fun row => length row = length others + 1) values).
  { eapply Forall_impl; [exact Hrows|]. intros row Hrow. cbn in Hrow. lia. }
  split; [|split].
  - unfold add_chart_from_dataframe.
    destruct others as [|second rest]; [congruence|].
    destruct values as [|row values]; [congruence | reflexivity].
  - intros row n k Hout. rewrite add_chart_commit in Hout.
    unfold commit, chart_table in Hout. rewrite chart_checks_result in Hout.
    destruct (find _ values) as [bad|] eqn:Hfind.
    + apply find_some in Hfind as [Hin Hbad].
      rewrite List.Forall_forall in Hfit. apply Hfit in Hin.
      apply negb_true_iff, Nat.eqb_neq in Hbad. contradiction.
    + destruct fill as [f|].
      * destruct (negb (length f =? length values)); [discriminate Hout|].
        cbn [bindR] in Hout.
        destruct (row_cells others PNone) eqn:Hh.
        -- cbn [bindR] in Hout. destruct (table_rows values _) eqn:Hr;
             [discriminate Hout|].
           injection Hout as ->. now apply table_rows_raises in Hr.
        -- injection Hout as ->. now apply row_cells_raises in Hh.
      * cbn [bindR] in Hout.
        destruct (row_cells others PNone) eqn:Hh.
        -- cbn [bindR] in Hout. destruct (table_rows values _) eqn:Hr;
             [discriminate Hout|].
           injection Hout as ->. now apply table_rows_raises in Hr.
        -- injection Hout as ->. now apply row_cells_raises in Hh.
  - intros Hfill Hcats Hdata. rewrite add_chart_commit. unfold commit.
    rewrite (chart_table_ok _ _ _ _ Hfit Hfill Hcats Hdata). reflexivity.
Qed.

Lemma add_chart_from_dataframe_rows_fit_witness :
  exists call,
    add_chart_from_dataframe true (a_str "Cool Chart")
      (DataFrame [PStr "Company"; PStr "Employees"; PStr "Revenue"]
         [[PStr "Apple"; PInt 200; PFloat (S754_finite false 3 (-1))];
          [PStr "Slack"; PInt 50; PFloat (S754_finite false 1 (-1))]])
      None true
    = Goes_on call
    /\ outcome (call (Template_init (PStr "example.pptx"))) = Ok tt.
Proof.
  destruct (add_chart_from_dataframe_rows_fit (a_str "Cool Chart")
              (PStr "Company") [PStr "Employees"; PStr "Revenue"]
              [[PStr "Apple"; PInt 200; PFloat (S754_finite false 3 (-1))];
               [PStr "Slack"; PInt 50; PFloat (S754_finite false 1 (-1))]]
              None true (Template_init (PStr "example.pptx")))
    as (call & Hcall & _ & Hok).
  - discriminate.
  - discriminate.
  - repeat constructor.
  - exists call. split; [exact Hcall|]. rewrite Hok; [reflexivity | | |].
    + intros f [=].
    + reflexivity.
    + repeat constructor.
Defined.

(** ** Dates in cells *)

Lemma year_value_checked :
  forallb
    (fun y => digits_value (String.list_ascii_of_string (decimal y)) =? y)
    (seq 0 (100 * 100)) = true.
Proof. vm_compute. reflexivity. Qed.

Lemma two_text_checked :
  forallb
    (fun n =>
       match String.list_ascii_of_string (zfill 2 (decimal n)) with
       | [a; b] => 10 * digit_value a + digit_value b =? n
       | _ => false
       end)
    (seq 0 100) = true.
Proof. vm_compute. reflexivity. Qed.

Lemma year_value (y : nat) :
  y < 100 * 100 -> digits_value (String.list_ascii_of_string (decimal y)) = y.
Proof.
  intros Hy. pose proof year_value_checked as H.
  rewrite List.forallb_forall in H. apply Nat.eqb_eq, H, in_seq. lia.
Qed.

Lemma two_text (n : nat) :
  n < 100 ->
  exists a b,
    zfill 2 (decimal n) = String a (String b "")
    /\ 10 * digit_value a + digit_value b = n.
Proof.
  intros Hn. pose proof two_text_checked as H.
  rewrite List.forallb_forall in H. specialize (H n).
  destruct (zfill 2 (decimal n)) as [|a [|b [|c s]]];
    cbn [String.list_ascii_of_string] in H;
    try (discriminate H; apply in_seq; lia).
  exists a, b. split; [reflexivity|].
  apply Nat.eqb_eq, H, in_seq. lia.
Qed.

Lemma list_ascii_of_append (a b : string) :
  String.list_ascii_of_string (a +:+ b)
  = String.list_ascii_of_string a ++ String.list_ascii_of_string b.
Proof.
  induction a as [|c a IH]; [reflexivity|].
  change (String c a +:+ b) with (String c (a +:+ b)). cbn. now rewrite IH.
Qed.

Lemma date_text_round_trip (y m d : nat) :
  y < 100 * 100 -> m < 100 -> d < 100 ->
  parse_date_text (date_text y m d) = Some (y, m, d).
Proof.
  intros Hy Hm Hd. unfold date_text, parse_date_text.
  destruct (two_text m Hm) as (m1 & m2 & -> & Em).
  destruct (two_text d Hd) as (d1 & d2 & -> & Ed).
  rewrite list_ascii_of_append.
  change (String.list_ascii_of_string
            ("-" +:+ String m1 (String m2 "") +:+ "-" +:+ String d1 (String d2 "")))
    with (["-"; m1; m2; "-"; d1; d2]%char).
  rewrite rev_app_distr. cbn [rev app].
  rewrite rev_involutive, (year_value y Hy), Em, Ed. reflexivity.
Qed.

(** The cell of a [datetime] holds its calendar date and nothing else: the
    time of day never shows, and for years of at most four digits, months
    and days of at most two, the text of the cell gives back year, month
    and day, so two values make the same cell exactly when they fall on the
    same day. *)
Theorem datetime_cell_is_its_date (y m d hh mm ss us : nat) (color : pyval) :
  (forall hh' mm' ss' us',
      transform_input (PDatetime y m d hh' mm' ss' us') color
      = transform_input (PDatetime y m d hh mm ss us) color)
  /\ (y < 100 * 100 -> m < 100 -> d < 100 ->
      exists text,
        transform_input (PDatetime y m d hh mm ss us) color
        = Ok (PDict (("date", PStr text) :: fill_part color))
        /\ parse_date_text text = Some (y, m, d))
  /\ (forall y' m' d' hh' mm' ss' us',
        y < 100 * 100 -> m < 100 -> d < 100 ->
        y' < 100 * 100 -> m' < 100 -> d' < 100 ->
        transform_input (PDatetime y' m' d' hh' mm' ss' us') color
        = transform_input (PDatetime y m d hh mm ss us) color ->
        y' = y /\ m' = m /\ d' = d).
Proof.
  split; [|split].
  - intros. now rewrite !transform_input_datetime.
  - intros Hy Hm Hd. exists (date_text y m d).
    split; [apply transform_input_datetime | now apply date_text_round_trip].
  - intros y' m' d' hh' mm' ss' us' Hy Hm Hd Hy' Hm' Hd' Heq.
    rewrite !transform_input_datetime in Heq. unfold cell in Heq.
    injection Heq as Heq.
    pose proof (date_text_round_trip y m d Hy Hm Hd) as H1.
    pose proof (date_text_round_trip y' m' d' Hy' Hm' Hd') as H2.
    rewrite Heq in H2. rewrite H1 in H2. now injection H2 as -> -> ->.
Qed.

Lemma datetime_cell_is_its_date_witness :
  exists text,
    transform_input (PDatetime 5 1 1 23 59 59 0) PNone
    = Ok (PDict [("date", PStr text)])
    /\ parse_date_text text = Some (5, 1, 1).
Proof.
  destruct (datetime_cell_is_its_date 5 1 1 23 59 59 0 PNone)
    as (_ & Hparse & _).
  apply Hparse; cbn; lia.
Defined.

(** ** Pie charts, when they return and when they raise *)

(** [add_pie_chart] looks at the lengths of all rows before any value: one
    row that is not a pair gives the [RuntimeError], which shows the name
    and the whole data, whatever the values and the fill list are, and
    nothing is appended.  With pairs only, values cells can hold, and no
    fill list or a colour per row, it returns without a warning and appends
    the empty row followed by a row per pair, both cells in the colour of
    the row. *)
Theorem add_pie_chart_result (name : strarg) (data : list (list pyval))
    (fill : option (list pyval)) (t : Template) :
  (Exists (fun row => length row <> 2) data ->
   add_pie_chart name data fill t
   = MkRun t [] (Raise (RuntimeError (msg_pie_shape (py_str name) data))))
  /\ (Forall (fun row => length row = 2) data ->
      (forall f, fill = Some f -> length f = length data) ->
      Forall (fun row => forallb supported row = true) data ->
      add_pie_chart name data fill t
      = MkRun
          (MkTemplate (path t)
             (thinkcell_objects t
              ++ [slide_object name
                    (PList [] :: zip_with to_row data (default_fill data fill))]))
          [] (Ok tt)
      /\ length (zip_with to_row data (default_fill data fill)) = length data
      /\ Forall (fun row => exists a b, row = PList [a; b])
           (zip_with to_row data (default_fill data fill))).
Proof.
  rewrite add_pie_chart_commit. unfold commit, pie_table.
  rewrite pie_check_result.
  set (bad := fun row : list pyval => negb (length row =? 2)).
  assert (Hbad : forall row, bad row = true <-> length row <> 2).
  { intros row. unfold bad. rewrite negb_true_iff. apply Nat.eqb_neq. }
  split.
  - intros Hex.
    assert (Exists (fun row => bad row = true) data) as Hex'.
    { eapply Exists_impl; [exact Hex|]. intros row. apply Hbad. }
    apply find_Exists in Hex' as [row ->]. reflexivity.
  - intros Hpairs Hfill Hdata.
    assert (find bad data = None) as ->.
    { destruct (find bad data) as [row|] eqn:Hf; [|reflexivity].
      apply find_some in Hf as [Hin Hb]. apply Hbad in Hb.
      rewrite List.Forall_forall in Hpairs. now apply Hpairs in Hin. }
    cbn [bindR].
    assert (Hlen : length (default_fill data fill) = length data).
    { destruct fill as [f|]; cbn [default_fill];
        [now apply Hfill | apply length_map]. }
    rewrite table_rows_supported.
    + split; [reflexivity|]. split; [rewrite length_zip_with; lia|].
      clear Hlen Hfill Hdata. generalize (default_fill data fill) as f.
      induction Hpairs as [|row data Hrow _ IH]; intros [|c f];
        cbn [zip_with]; try constructor; [|apply IH].
      destruct row as [|a [|b [|]]]; try discriminate Hrow.
      unfold to_row. cbn [map]. eauto.
    + clear Hlen Hfill Hpairs. generalize (default_fill data fill) as f.
      induction Hdata as [|row data Hrow _ IH]; intros [|c f]; try reflexivity.
      cbn [zip_with forallb]. rewrite Hrow. apply IH.
Qed.

Lemma add_pie_chart_result_witness :
  add_pie_chart (a_str "tasty pie")
    [[PStr "Series1"; PInt 90]; [PStr "Series2"; PList []; PInt 10]]
    (Some [PStr "#000000"]) (Template_init (PStr "example.pptx"))
  = MkRun (Template_init (PStr "example.pptx")) []
      (Raise (RuntimeError
                (msg_pie_shape "tasty pie"
                   [[PStr "Series1"; PInt 90];
                    [PStr "Series2"; PList []; PInt 10]])))
  /\ outcome
       (add_pie_chart (a_str "tasty pie")
          [[PStr "Series1"; PInt 90]; [PStr "Series2"; PInt 10]]
          (Some [PStr "#000000"; PNone]) (Template_init (PStr "example.pptx")))
     = Ok tt.
Proof.
  split.
  - apply (add_pie_chart_result (a_str "tasty pie")
             [[PStr "Series1"; PInt 90]; [PStr "Series2"; PList []; PInt 10]]
             (Some [PStr "#000000"]) (Template_init (PStr "example.pptx"))).
    apply Exists_cons_tl, Exists_cons_hd. cbn. lia.
  - destruct (add_pie_chart_result (a_str "tasty pie")
                [[PStr "Series1"; PInt 90]; [PStr "Series2"; PInt 10]]
                (Some [PStr "#000000"; PNone]) (Template_init (PStr "example.pptx")))
      as [_ Hok].
    destruct Hok as (-> & _).
    + repeat constructor.
    + intros f [= <-]. reflexivity.
    + repeat constructor.
    + reflexivity.
Defined.

(** ** One row builder for three methods *)

(** For data made of pairs, [add_pie_chart] is [add_table] with an empty
    row put first: the same outcome, the same exception when one is raised,
    no warning from either, and on return the table of the pie chart is the
    empty row followed by the table [add_table] makes.  This holds for any
    fill list, of any length. *)
Theorem pie_chart_is_table_after_empty_row (name : strarg)
    (data : list (list pyval)) (fill : option (list pyval)) (t : Template) :
  Forall (fun row => length row = 2) data ->
  outcome (add_pie_chart name data fill t) = outcome (add_table name data fill t)
  /\ warned (add_pie_chart name data fill t) = warned (add_table name data fill t)
  /\ forall rows,
       final (add_table name data fill t)
       = MkTemplate (path t) (thinkcell_objects t ++ [slide_object name rows]) ->
       outcome (add_table name data fill t) = Ok tt ->
       final (add_pie_chart name data fill t)
       = MkTemplate (path t)
           (thinkcell_objects t ++ [slide_object name (PList [] :: rows)]).
Proof.
  intros Hpairs. rewrite add_pie_chart_commit, add_table_commit.
  unfold commit, pie_table. rewrite pie_check_result.
  assert (find (fun row : list pyval => negb (length row =? 2)) data = None) as ->.
  { destruct (find _ data) as [row|] eqn:Hf; [|reflexivity].
    apply find_some in Hf as [Hin Hb]. apply negb_true_iff, Nat.eqb_neq in Hb.
    rewrite List.Forall_forall in Hpairs. now apply Hpairs in Hin. }
  cbn [bindR].
  destruct (table_rows data (default_fill data fill)) as [rows0|e];
    cbn [bindR outcome warned final].
  - split; [reflexivity|]. split; [reflexivity|].
    intros rows Heq _. injection Heq as Heq.
    apply app_inv_head in Heq. now injection Heq as <-.
  - split; [reflexivity|]. split; [reflexivity|]. intros rows _ [=].
Qed.

Lemma pie_chart_is_table_after_empty_row_witness :
  outcome (add_pie_chart (a_str "tasty pie")
             [[PStr "Series1"; PInt 90]; [PStr "Series2"; PNone]] None
             (Template_init (PStr "example.pptx")))
  = outcome (add_table (a_str "tasty pie")
               [[PStr "Series1"; PInt 90]; [PStr "Series2"; PNone]] None
               (Template_init (PStr "example.pptx"))).
Proof.
  apply (pie_chart_is_table_after_empty_row (a_str "tasty pie")
           [[PStr "Series1"; PInt 90]; [PStr "Series2"; PNone]] None
           (Template_init (PStr "example.pptx"))).
  repeat constructor.
Defined.

(** For data that passes the two checks of [add_chart], with categories
    cells can hold, the data rows of the chart are the rows [add_table]
    makes of the same data and fill list: [add_chart] returns exactly when
    [add_table] does, raises the same exception when it does not, and on
    return its table is the header, the empty row when asked for, then the
    table of [add_table]. *)
Theorem chart_rows_are_table_rows (name : strarg) (categories : list pyval)
    (data : list (list pyval)) (fill : option (list pyval))
    (first_row_blank : bool) (t : Template) :
  Forall (fun data_list => length data_list = length categories + 1) data ->
  (forall f, fill = Some f -> length f = length data) ->
  forallb supported categories = true ->
  outcome (add_chart name categories data fill first_row_blank t)
  = outcome (add_table name data fill t)
  /\ forall rows,
       final (add_table name data fill t)
       = MkTemplate (path t) (thinkcell_objects t ++ [slide_object name rows]) ->
       outcome (add_table name data fill t) = Ok tt ->
       final (add_chart name categories data fill first_row_blank t)
       = MkTemplate (path t)
           (thinkcell_objects t
            ++ [slide_object name
                  (PList (PNone :: map (fun el => to_cell el PNone) categories)
                   :: (if first_row_blank then [PList []] else []) ++ rows)]).
Proof.
  intros Hrows Hfill Hcats. rewrite add_chart_commit, add_table_commit.
  unfold commit, chart_table.
  assert (chart_checks categories data fill = Ok tt) as ->.
  { destruct (chart_checks categories data fill) as [[]|e] eqn:Hc; [reflexivity|].
    exfalso. assert (exists e, chart_checks categories data fill = Raise e) as Hex
      by eauto.
    apply chart_checks_raise_iff in Hex as [Hex | (f & -> & Hne)].
    - apply List.Exists_exists in Hex as (row & Hin & Hbad).
      rewrite List.Forall_forall in Hrows. now apply Hrows in Hin.
    - now apply Hne, Hfill. }
  cbn [bindR]. rewrite (row_cells_supported _ _ Hcats). cbn [bindR].
  destruct (table_rows data (default_fill data fill)) as [rows0|e];
    cbn [bindR outcome final].
  - split; [reflexivity|]. intros rows Heq _. injection Heq as Heq.
    apply app_inv_head in Heq. now injection Heq as <-.
  - split; [reflexivity|]. intros rows _ [=].
Qed.

Lemma chart_rows_are_table_rows_witness :
  outcome (add_chart (a_str "Chart name") [PStr "alpha"; PStr "bravo"]
             [[PStr "today"; PInt 1; PInt 2]; [PStr "tomorrow"; PList []; PInt 4]]
             None true (Template_init (PStr "example.pptx")))
  = outcome (add_table (a_str "Chart name")
               [[PStr "today"; PInt 1; PInt 2]; [PStr "tomorrow"; PList []; PInt 4]]
               None (Template_init (PStr "example.pptx"))).
Proof.
  apply (chart_rows_are_table_rows (a_str "Chart name") [PStr "alpha"; PStr "bravo"]
           [[PStr "today"; PInt 1; PInt 2]; [PStr "tomorrow"; PList []; PInt 4]]
           None true (Template_init (PStr "example.pptx"))).
  - repeat constructor.
  - intros f [=].
  - reflexivity.
Defined.
